(** * The ledger of the bank demo: [utils.py] and the history view of [giri.py]

    The two SQLite tables of [utils.py] are embedded as a record: [users]
    is a finite map keyed by the primary key [username], [transactions] is
    the list of rows in insertion order together with the AUTOINCREMENT
    counter.  Each Python function opens a connection, runs a few
    statements and closes it; the statements are written in a small monad
    over a connection that keeps the committed database, the view of the
    open transaction, and a counter that says which database call (if
    any) raises [sqlite3.OperationalError].

    The tables come twice.  In the first model amounts and balances are
    exact rationals: it carries what does not depend on how a sum is
    rounded (which rows are written, which accounts exist, what the
    pages do).  Module [real] has the same tables and functions with
    the numbers the code has, IEEE doubles in a REAL column: it carries
    what is said about the value of a balance.  Calls are whole in
    both; [withdraw_test] and [withdraw_write] cut [withdraw] at the
    one place where a second call can come in.  [datetime.now()] and
    the bcrypt hash are inputs of the functions that use them. *)

From Stdlib Require Import QArith Lqa ZArith String Ascii List Floats.
From stdpp Require Import gmap strings list fin_maps sorting.

Open Scope string_scope.
Open Scope list_scope.
Open Scope Q_scope.

(** ** Tables *)

(** A row of [users], without its key: [password BLOB, balance REAL]. *)
Record user := mk_user { password : string; balance : Q }.

(** A row of [transactions]. *)
Record txn := mk_txn {
  id : Z;
  username : string;
  type : string;
  amount : Q;
  timestamp : string;
  other_party : string
}.

(** [sqlite_sequence] is the largest id AUTOINCREMENT has handed out for
    [transactions]; it is stored in the database file, so a rollback
    restores it like any other table. *)
Record database := mk_db {
  users : gmap string user;
  transactions : list txn;
  sqlite_sequence : Z
}.

(** The database right after [create_tables()] on a fresh file. *)
Definition create_tables : database :=
  {| users := ∅; transactions := []; sqlite_sequence := 0 |}.

(** ** Connections and statements *)

Module sqlite3.

(** [IntegrityError] is the primary-key violation; [OperationalError]
    stands for every other [sqlite3.Error] (disk I/O, busy, full). *)
Inductive Error := IntegrityError | OperationalError.

Inductive outcome (A : Type) :=
| Return (a : A)
| Raise (e : Error).
Arguments Return {A} a.
Arguments Raise {A} e.

(** [committed] is what the file holds, [current] is what this
    connection sees (the file plus its uncommitted writes), and
    [failing] counts the database calls that still succeed before one
    raises; [None] means none does. *)
Record connection := mk_conn {
  committed : database;
  current : database;
  failing : option nat
}.

Definition cursor (A : Type) := connection -> outcome A * connection.

Definition ret {A} (a : A) : cursor A := fun c => (Return a, c).

Definition bind {A B} (m : cursor A) (k : A -> cursor B) : cursor B :=
  fun c => match m c with
           | (Return a, c') => k a c'
           | (Raise e, c') => (Raise e, c')
           end.

(** [try: m except E: h], where [catches] says which errors [E] covers. *)
Definition try_except {A} (m : cursor A) (catches : Error -> bool)
    (h : cursor A) : cursor A :=
  fun c => match m c with
           | (Return a, c') => (Return a, c')
           | (Raise e, c') => if catches e then h c' else (Raise e, c')
           end.

(** [except sqlite3.Error] catches both; [except sqlite3.IntegrityError]
    only the first. *)
Definition any_Error (e : Error) : bool := true.
Definition only_IntegrityError (e : Error) : bool :=
  match e with IntegrityError => true | OperationalError => false end.

(** Every call into the database first consults the fault counter. *)
Definition call : cursor unit :=
  fun c => match failing c with
           | None => (Return tt, c)
           | Some O =>
               (Raise OperationalError,
                {| committed := committed c; current := current c;
                   failing := None |})
           | Some (S n) =>
               (Return tt,
                {| committed := committed c; current := current c;
                   failing := Some n |})
           end.

Definition read {A} (f : database -> A) : cursor A :=
  fun c => (Return (f (current c)), c).

Definition modify (f : database -> database) : cursor unit :=
  fun c => (Return tt,
            {| committed := committed c; current := f (current c);
               failing := failing c |}).

Definition raise {A} (e : Error) : cursor A := fun c => (Raise e, c).

Definition execute_BEGIN : cursor unit := call.

Definition commit : cursor unit :=
  bind call (fun _ c =>
    (Return tt,
     {| committed := current c; current := current c;
        failing := failing c |})).

Definition rollback : cursor unit :=
  fun c => (Return tt,
            {| committed := committed c; current := committed c;
               failing := failing c |}).

(** [get_connection()] ... [finally: conn.close()]: closing drops
    whatever was not committed. *)
Definition connect {A} (failing : option nat) (db : database)
    (m : cursor A) : outcome A * database :=
  let (r, c) := m {| committed := db; current := db; failing := failing |} in
  (r, committed c).

End sqlite3.
Import sqlite3.

Notation "'do' x <- m ; k" := (bind m (fun x => k))
  (at level 10, x name, m at level 100, k at level 200).
Notation "'run' m ; k" := (bind m (fun _ => k))
  (at level 10, m at level 100, k at level 200).
Notation "'try' m 'except' E => h" := (try_except m E h)
  (at level 10, m at level 200, E at level 9, h at level 200).

(** ** The statements [utils.py] executes *)

(** [SELECT balance FROM users WHERE username = ?], then [fetchone()]. *)
Definition SELECT_balance (name : string) : cursor (option Q) :=
  run call;
  read (fun db => balance <$> users db !! name).

(** [SELECT username FROM users WHERE username = ?], then [fetchone()]. *)
Definition SELECT_username (name : string) : cursor (option string) :=
  run call;
  read (fun db => (fun _ => name) <$> users db !! name).

(** [INSERT INTO users (username, password, balance) VALUES (?, ?, ?)]:
    the primary key rejects a second row with the same username. *)
Definition INSERT_user (name hashed : string) (bal : Q) : cursor unit :=
  run call;
  do taken <- read (fun db => users db !! name);
  match taken with
  | Some _ => raise IntegrityError
  | None =>
      modify (fun db =>
        {| users := <[name := mk_user hashed bal]> (users db);
           transactions := transactions db;
           sqlite_sequence := sqlite_sequence db |})
  end.

(** [UPDATE users SET balance = balance + ? WHERE username = ?] and its
    twin with [-]: [f] is the new balance as a function of the old one.
    A username that matches no row updates nothing and raises nothing. *)
Definition UPDATE_balance (f : Q -> Q) (name : string) : cursor unit :=
  run call;
  modify (fun db =>
    {| users := alter (fun u => mk_user (password u) (f (balance u))) name
                  (users db);
       transactions := transactions db;
       sqlite_sequence := sqlite_sequence db |}).

(** [INSERT INTO transactions (username, type, amount, timestamp,
    other_party) VALUES (?, ?, ?, ?, ?)]: the id is the next value of the
    AUTOINCREMENT counter. *)
Definition INSERT_transaction (name ty : string) (amt : Q)
    (stamp other : string) : cursor unit :=
  run call;
  modify (fun db =>
    {| users := users db;
       transactions :=
         transactions db ++
           [mk_txn (sqlite_sequence db + 1) name ty amt stamp other];
       sqlite_sequence := (sqlite_sequence db + 1)%Z |}).

(** [ORDER BY id ASC]: insertion sort on the id column. *)
Fixpoint insert_by_id (t : txn) (l : list txn) : list txn :=
  match l with
  | [] => [t]
  | t' :: l' =>
      if (id t <=? id t')%Z then t :: l else t' :: insert_by_id t l'
  end.

Definition ORDER_BY_id (l : list txn) : list txn :=
  foldr insert_by_id [] l.

(** [SELECT type, amount, timestamp, other_party FROM transactions
    WHERE username = ? ORDER BY id ASC], then [fetchall()]. *)
Definition columns (t : txn) : string * Q * string * string :=
  (type t, amount t, timestamp t, other_party t).

Definition WHERE_username (name : string) (l : list txn) : list txn :=
  filter (fun t => username t = name) l.

Definition SELECT_transactions (name : string)
    : cursor (list (string * Q * string * string)) :=
  run call;
  read (fun db =>
    columns <$> ORDER_BY_id (WHERE_username name (transactions db))).

(** ** The functions of [utils.py] *)

(** Python's [not s] on a string. *)
Definition not_ (s : string) : bool :=
  match s with EmptyString => true | String _ _ => false end.

(** [x < y] on amounts. *)
Definition Qlt_bool (x y : Q) : bool := negb (Qle_bool y x).

(** [signup(username, password)]; [hashed] is what
    [bcrypt.hashpw(password, bcrypt.gensalt())] returned. *)
Definition signup (failing : option nat) (hashed : string)
    (db : database) (username password : string) : outcome bool * database :=
  if not_ username || not_ password then (Return false, db)
  else
    connect failing db (
      try (
        run INSERT_user username hashed 0;
        run commit;
        ret true )
      except only_IntegrityError =>
        ret false).

(** [get_balance(username)]. *)
Definition get_balance (failing : option nat) (db : database)
    (username : string) : outcome Q * database :=
  connect failing db (
    do row <- SELECT_balance username;
    ret (match row with Some b => b | None => 0 end)).

(** [deposit(username, amount)]; [now] is the formatted
    [datetime.now()]. *)
Definition deposit (failing : option nat) (now : string) (db : database)
    (username : string) (amount : Q) : outcome bool * database :=
  if Qle_bool amount 0 then (Return false, db)
  else
    connect failing db (
      try (
        run UPDATE_balance (fun b => b + amount) username;
        run INSERT_transaction username "Deposit" amount now "";
        run commit;
        ret true )
      except any_Error => (
        run rollback;
        ret false )).

(** [withdraw(username, amount)]. *)
Definition withdraw (failing : option nat) (now : string) (db : database)
    (username : string) (amount : Q) : outcome bool * database :=
  if Qle_bool amount 0 then (Return false, db)
  else
    connect failing db (
      do row <- SELECT_balance username;
      match row with
      | None => ret false
      | Some b =>
          if Qlt_bool b amount then ret false
          else
            try (
              run UPDATE_balance (fun b => b - amount) username;
              run INSERT_transaction username "Withdraw" amount now "";
              run commit;
              ret true )
            except any_Error => (
              run rollback;
              ret false )
      end).

(** [transfer(sender, receiver, amount)]. *)
Definition transfer (failing : option nat) (now : string) (db : database)
    (sender receiver : string) (amount : Q) : outcome bool * database :=
  if Qle_bool amount 0 || not_ sender || not_ receiver
     || bool_decide (sender = receiver)
  then (Return false, db)
  else
    connect failing db (
      do sender_row <- SELECT_balance sender;
      do receiver_row <- SELECT_username receiver;
      match sender_row, receiver_row with
      | Some b, Some _ =>
          if Qlt_bool b amount then ret false
          else
            try (
              run execute_BEGIN;
              run UPDATE_balance (fun b => b - amount) sender;
              run UPDATE_balance (fun b => b + amount) receiver;
              run INSERT_transaction sender "transfer_out" amount now
                    receiver;
              run INSERT_transaction receiver "transfer_in" amount now
                    sender;
              run commit;
              ret true )
            except any_Error => (
              run rollback;
              ret false )
      | _, _ => ret false
      end).

(** [get_transactions(username)]. *)
Definition get_transactions (failing : option nat) (db : database)
    (username : string)
    : outcome (list (string * Q * string * string)) * database :=
  connect failing db (SELECT_transactions username).

(** ** The sign [giri.py] gives a history row *)

(** [str.lower()] on the ASCII letters, which is all the four values of
    the [type] column contain. *)
Definition lower_ascii (a : ascii) : ascii :=
  let n := nat_of_ascii a in
  if ((65 <=? n) && (n <=? 90))%nat then ascii_of_nat (n + 32) else a.

Fixpoint lower (s : string) : string :=
  match s with
  | EmptyString => EmptyString
  | String a s' => String (lower_ascii a) (lower s')
  end.

(** The history page prints [+amount] when
    [t_type.lower() in ("deposit", "transfer_in")] and [-amount]
    otherwise. *)
Definition credits (ty : string) : bool :=
  bool_decide (lower ty = "deposit") || bool_decide (lower ty = "transfer_in").

Definition signed_amount (t : txn) : Q :=
  if credits (type t) then amount t else - amount t.

(** Opening balance 0 plus the signed amounts of the rows of one
    username, added up in the order of the log. *)
Definition signed_sum (l : list txn) : Q :=
  fold_left Qplus (signed_amount <$> l) 0.

Definition ledger_balance (name : string) (db : database) : Q :=
  signed_sum (WHERE_username name (transactions db)).

(** ** Sequences of operations *)

Inductive request :=
| Signup (username password hashed : string)
| Deposit (username : string) (amount : Q)
| Withdraw (username : string) (amount : Q)
| Transfer (sender receiver : string) (amount : Q).

(** One call of the ledger: which database call fails (if any), what
    the clock shows, and the request. *)
Record invocation := mk_invocation {
  inv_failing : option nat;
  inv_now : string;
  inv_request : request
}.

Definition serve (db : database) (i : invocation) : database :=
  match inv_request i with
  | Signup u p h => snd (signup (inv_failing i) h db u p)
  | Deposit u a => snd (deposit (inv_failing i) (inv_now i) db u a)
  | Withdraw u a => snd (withdraw (inv_failing i) (inv_now i) db u a)
  | Transfer s r a => snd (transfer (inv_failing i) (inv_now i) db s r a)
  end.

Definition replay (l : list invocation) : database :=
  fold_left serve l create_tables.

(** ** What a committed operation leaves in the database *)

Definition credit (a : Q) (u : user) : user :=
  mk_user (password u) (balance u + a).

Definition debit (a : Q) (u : user) : user :=
  mk_user (password u) (balance u - a).

Definition next_id (db : database) : Z := (sqlite_sequence db + 1)%Z.

Definition signup_committed (hashed : string) (db : database)
    (name : string) : database :=
  {| users := <[name := mk_user hashed 0]> (users db);
     transactions := transactions db;
     sqlite_sequence := sqlite_sequence db |}.

Definition deposit_committed (now : string) (db : database)
    (name : string) (a : Q) : database :=
  {| users := alter (credit a) name (users db);
     transactions :=
       transactions db ++ [mk_txn (next_id db) name "Deposit" a now ""];
     sqlite_sequence := next_id db |}.

Definition withdraw_committed (now : string) (db : database)
    (name : string) (a : Q) : database :=
  {| users := alter (debit a) name (users db);
     transactions :=
       transactions db ++ [mk_txn (next_id db) name "Withdraw" a now ""];
     sqlite_sequence := next_id db |}.

Definition transfer_out_row (now : string) (db : database)
    (sender receiver : string) (a : Q) : txn :=
  mk_txn (next_id db) sender "transfer_out" a now receiver.

Definition transfer_in_row (now : string) (db : database)
    (sender receiver : string) (a : Q) : txn :=
  mk_txn (next_id db + 1) receiver "transfer_in" a now sender.

Definition transfer_committed (now : string) (db : database)
    (sender receiver : string) (a : Q) : database :=
  {| users := alter (credit a) receiver (alter (debit a) sender (users db));
     transactions :=
       (transactions db ++ [transfer_out_row now db sender receiver a])
         ++ [transfer_in_row now db sender receiver a];
     sqlite_sequence := (next_id db + 1)%Z |}.

(** [survives n failing]: the first [n] database calls of a connection
    all succeed. *)
Definition survives (n : nat) (failing : option nat) : bool :=
  match failing with
  | None => true
  | Some k => (n <=? k)%nat
  end.

(** ** Committed states *)

(** Whatever one call does to the database is one of these steps. *)
Inductive step (db : database) : database -> Prop :=
| step_none : step db db
| step_signup hashed name :
    users db !! name = None ->
    step db (signup_committed hashed db name)
| step_deposit now name a :
    0 < a ->
    step db (deposit_committed now db name a)
| step_withdraw now name a u :
    0 < a -> users db !! name = Some u -> a <= balance u ->
    step db (withdraw_committed now db name a)
| step_transfer now sender receiver a u v :
    0 < a -> sender <> receiver ->
    users db !! sender = Some u -> users db !! receiver = Some v ->
    a <= balance u ->
    step db (transfer_committed now db sender receiver a).

(** ** Properties of a database *)

(** No balance is below zero. *)
Definition solvent (db : database) : Prop :=
  forall name u, users db !! name = Some u -> 0 <= balance u.

Definition id_lt (t t' : txn) : Prop := (id t < id t')%Z.

(** Ids follow the insertion order and stay below the counter. *)
Definition numbered (db : database) : Prop :=
  StronglySorted id_lt (transactions db) /\
  Forall (fun t => (id t <= sqlite_sequence db)%Z) (transactions db).

(** An account's balance is what its rows add up to, and a username
    without an account has no rows. *)
Definition audited (db : database) : Prop :=
  forall name,
    match users db !! name with
    | Some u => balance u == ledger_balance name db
    | None => WHERE_username name (transactions db) = []
    end.

(** Every deposit of the list finds its account when it is made. *)
Fixpoint deposits_find_account (db : database) (l : list invocation) : bool :=
  match l with
  | [] => true
  | i :: l' =>
      match inv_request i with
      | Deposit name _ => bool_decide (is_Some (users db !! name))
      | _ => true
      end && deposits_find_account (serve db i) l'
  end.

(** ** The other functions of [utils.py] *)

(** [SELECT password FROM users WHERE username = ?], then [fetchone()]. *)
Definition SELECT_password (name : string) : cursor (option string) :=
  run call;
  read (fun db => password <$> users db !! name).

(** [login(username, password)]; [checkpw] is [bcrypt.checkpw].  The
    column holds bytes, and strings are byte strings here, so the
    [isinstance(stored_hash, str)] re-encoding changes nothing. *)
Definition login (checkpw : string -> string -> bool)
    (failing : option nat) (db : database) (username password : string)
    : outcome bool * database :=
  if not_ username || not_ password then (Return false, db)
  else
    connect failing db (
      do row <- SELECT_password username;
      match row with
      | None => ret false
      | Some stored_hash => ret (checkpw password stored_hash)
      end).

(** [ORDER BY username ASC]: SQLite compares TEXT byte by byte, which is
    the lexicographic order of [String.leb]. *)
Definition username_le (p q : string * user) : Prop :=
  String.leb p.1 q.1 = true.

#[global] Instance username_le_dec : RelDecision username_le :=
  fun p q => decide (String.leb p.1 q.1 = true).

Definition ORDER_BY_username (l : list (string * user))
    : list (string * user) :=
  merge_sort username_le l.

(** [SELECT username, balance FROM users ORDER BY username ASC], then
    [fetchall()]. *)
Definition SELECT_all_users : cursor (list (string * Q)) :=
  run call;
  read (fun db =>
    (fun p => (p.1, balance p.2))
      <$> ORDER_BY_username (map_to_list (users db))).

(** [get_all_users()]. *)
Definition get_all_users (failing : option nat) (db : database)
    : outcome (list (string * Q)) * database :=
  connect failing db SELECT_all_users.

(** ** The details column of the history page of [giri.py] *)

(** [details = t_time], replaced by ["To: ..."] or ["From: ..."] when
    [t_other] is not empty and the type is a transfer. *)
Definition details (t_type t_time t_other : string) : string :=
  if not_ t_other then t_time
  else if bool_decide (t_type = "transfer_out")
       then "To: " +:+ t_other +:+ " | " +:+ t_time
  else if bool_decide (t_type = "transfer_in")
       then "From: " +:+ t_other +:+ " | " +:+ t_time
  else t_time.

(** ** The script [giri.py] *)

(** Streamlit runs the script from top to bottom on every interaction.
    One run is a function of what the widgets return, of the session
    state and of the database; what it draws is kept only as the kinds
    of the alert boxes, in the order they are drawn.  [create_tables()]
    at the top of the script finds the tables in place and changes
    nothing. *)

Record session_state := mk_session {
  logged_in : bool;
  session_username : string
}.

(** Lines 22-25: the state of a session that has none yet. *)
Definition fresh_session : session_state := mk_session false "".

Definition do_logout (st : session_state) : session_state :=
  mk_session false "".

Inductive alert := st_success | st_error | st_warning | st_info.

(** What the widgets return in one run, and what the calls of the run
    get from outside: the bcrypt hash, the clock, and which database
    call of the first and of the second connection raises.  The browser
    keeps [amt] at 0.01 or more; nothing here relies on it. *)
Record widgets := mk_widgets {
  sidebar_index : nat;
  uname : string;
  pwd : string;
  submitted : bool;
  action_index : nat;
  amt : Q;
  receiver : string;
  hashed_pwd : string;
  clock : string;
  failing_first : option nat;
  failing_second : option nat
}.

(** What a run leaves: the session, the database, the alerts drawn, and
    the exception that ended the run, if one did. *)
Record page := mk_page {
  session_after : session_state;
  db_after : database;
  alerts : list alert;
  raised : option Error
}.

(** [st.selectbox] and [st.radio] return one of their options. *)
Definition selectbox (options : list string) (index : nat) : string :=
  nth index options (hd "" options).

Definition dashboard (strip : string -> string) (w : widgets)
    (st : session_state) (db : database) : page :=
  match get_balance (failing_first w) db (session_username st) with
  | (Raise e, db) => mk_page st db [] (Some e)
  | (Return _, db) =>
      let action :=
        selectbox ["Deposit"; "Withdraw"; "Transfer"; "Transaction History"]
          (action_index w) in
      if bool_decide (action = "Deposit") then
        if submitted w then
          match deposit (failing_second w) (clock w) db
                  (session_username st) (amt w) with
          | (Return true, db) => mk_page st db [st_info; st_success] None
          | (Return false, db) => mk_page st db [st_info; st_error] None
          | (Raise e, db) => mk_page st db [st_info] (Some e)
          end
        else mk_page st db [st_info] None
      else if bool_decide (action = "Withdraw") then
        if submitted w then
          match withdraw (failing_second w) (clock w) db
                  (session_username st) (amt w) with
          | (Return true, db) => mk_page st db [st_info; st_success] None
          | (Return false, db) => mk_page st db [st_info; st_error] None
          | (Raise e, db) => mk_page st db [st_info] (Some e)
          end
        else mk_page st db [st_info] None
      else if bool_decide (action = "Transfer") then
        if submitted w then
          if bool_decide (strip (receiver w) = session_username st)
          then mk_page st db [st_info; st_error] None
          else
            match transfer (failing_second w) (clock w) db
                    (session_username st) (strip (receiver w)) (amt w) with
            | (Return true, db) => mk_page st db [st_info; st_success] None
            | (Return false, db) => mk_page st db [st_info; st_error] None
            | (Raise e, db) => mk_page st db [st_info] (Some e)
            end
        else mk_page st db [st_info] None
      else if bool_decide (action = "Transaction History") then
        match get_transactions (failing_second w) db (session_username st) with
        | (Return [], db) => mk_page st db [st_info; st_info] None
        | (Return (_ :: _), db) => mk_page st db [st_info] None
        | (Raise e, db) => mk_page st db [st_info] (Some e)
        end
      else mk_page st db [st_info] None
  end.

(** One run of [giri.py]; [strip] is [str.strip] and [checkpw] is
    [bcrypt.checkpw]. *)
Definition giri (strip : string -> string)
    (checkpw : string -> string -> bool)
    (w : widgets) (st : session_state) (db : database) : page :=
  let choice :=
    if logged_in st
    then selectbox ["Dashboard"; "Admin Panel"; "Logout"] (sidebar_index w)
    else selectbox ["Signup"; "Login"] (sidebar_index w) in
  if bool_decide (choice = "Logout") then
    mk_page (do_logout st) db [st_success] None
  else if bool_decide (choice = "Signup") then
    if submitted w then
      if not_ (uname w) || not_ (pwd w) then mk_page st db [st_warning] None
      else
        match signup (failing_first w) (hashed_pwd w) db
                (strip (uname w)) (pwd w) with
        | (Return true, db) => mk_page st db [st_success] None
        | (Return false, db) => mk_page st db [st_error] None
        | (Raise e, db) => mk_page st db [] (Some e)
        end
    else mk_page st db [] None
  else if bool_decide (choice = "Login") then
    if submitted w then
      match login checkpw (failing_first w) db (strip (uname w)) (pwd w) with
      | (Return true, db) =>
          mk_page (mk_session true (strip (uname w))) db [st_success] None
      | (Return false, db) => mk_page st db [st_error] None
      | (Raise e, db) => mk_page st db [] (Some e)
      end
    else mk_page st db [] None
  else if bool_decide (choice = "Dashboard") && logged_in st then
    dashboard strip w st db
  else if bool_decide (choice = "Admin Panel") && logged_in st then
    match get_all_users (failing_first w) db with
    | (Return [], db) => mk_page st db [st_warning; st_info] None
    | (Return (_ :: _), db) => mk_page st db [st_warning] None
    | (Raise e, db) => mk_page st db [st_warning] (Some e)
    end
  else if (bool_decide (choice = "Dashboard")
           || bool_decide (choice = "Admin Panel")) && negb (logged_in st)
  then mk_page st db [st_warning] None
  else mk_page st db [] None.

(** Several browser sessions on one database, one run after the
    other. *)
Record visit := mk_visit { visitor : nat; input : widgets }.

Record site := mk_site {
  sessions : gmap nat session_state;
  bank : database
}.

Definition session_of (s : site) (v : nat) : session_state :=
  default fresh_session (sessions s !! v).

Definition handle (strip : string -> string)
    (checkpw : string -> string -> bool) (s : site) (v : visit) : site :=
  let p := giri strip checkpw (input v) (session_of s (visitor v)) (bank s) in
  {| sessions := <[visitor v := session_after p]> (sessions s);
     bank := db_after p |}.

Definition browse (strip : string -> string)
    (checkpw : string -> string -> bool) (vs : list visit) : site :=
  fold_left (handle strip checkpw) vs
    {| sessions := ∅; bank := create_tables |}.

(** The request is a signup, or it is made in the name of the user the
    session is logged in as. *)
Definition acts_for (st : session_state) (i : invocation) : Prop :=
  match inv_request i with
  | Signup _ _ _ => True
  | Deposit name _ | Withdraw name _ | Transfer name _ _ =>
      logged_in st = true /\ name = session_username st
  end.

(** What a run can do: nothing to the database, with the session kept,
    logged out, or logged in as an existing account; or one committed
    request, drawn as a success, with the session kept. *)
Definition run_effect (st : session_state) (db : database) (p : page)
    : Prop :=
  (db_after p = db /\
   (session_after p = st \/ session_after p = do_logout st \/
    exists name, session_after p = mk_session true name /\
                 is_Some (users db !! name))) \/
  (session_after p = st /\ raised p = None /\ st_success ∈ alerts p /\
   exists i, db_after p = serve db i /\ acts_for st i).

(** Every session that is logged in is logged in as an account. *)
Definition sessions_have_accounts (s : site) : Prop :=
  forall v st,
    sessions s !! v = Some st -> logged_in st = true ->
    is_Some (users (bank s) !! session_username st).

(** ** More properties of a database *)

(** Usernames in strictly ascending byte order. *)
Definition username_lt (p q : string * Q) : Prop :=
  String.ltb p.1 q.1 = true.

(** What the functions of [utils.py] write into a row: a positive
    amount, one of four types, no other party for a deposit or a
    withdrawal, a different and non-empty one for a transfer. *)
Definition well_formed (t : txn) : Prop :=
  0 < amount t /\
  (((type t = "Deposit" \/ type t = "Withdraw") /\ other_party t = "") \/
   ((type t = "transfer_out" \/ type t = "transfer_in") /\
    other_party t <> "" /\ other_party t <> username t)).

(** The accounts a row refers to exist; a Deposit row is exempt, since
    [deposit] does not look for the account. *)
Definition refers_to_accounts (db : database) (t : txn) : Prop :=
  (type t = "Deposit" \/ is_Some (users db !! username t)) /\
  (other_party t = "" \/ is_Some (users db !! other_party t)).

(** What every reachable database satisfies besides [solvent] and
    [numbered]. *)
Definition tidy (db : database) : Prop :=
  (forall name, is_Some (users db !! name) -> name <> "") /\
  Forall well_formed (transactions db) /\
  Forall (refers_to_accounts db) (transactions db).

(** ** A small run used for the concrete checks: scenarios 1 and 3 *)

Definition opened : database :=
  replay
    [ mk_invocation None "2025-01-01 10:00:00" (Signup "alice" "pw-a" "hash-a");
      mk_invocation None "2025-01-01 10:01:00" (Signup "bob" "pw-b" "hash-b");
      mk_invocation None "2025-01-01 10:02:00" (Deposit "alice" 100) ].

(** ** [withdraw], cut where another call can come in *)

(** Every call opens its own connection, and between the SELECT and the
    UPDATE of [withdraw] the connection holds no transaction: the UPDATE
    works on what is committed when it starts.  So a second call can
    run between the test of line 144 and the try block of line 147.
    [withdraw_test] is the call up to that test ([Return true]: it goes
    on to the try block), [withdraw_write] is the try block and the
    close. *)
Definition withdraw_test (failing : option nat) (db : database)
    (username : string) (amount : Q) : outcome bool :=
  if Qle_bool amount 0 then Return false
  else
    fst (connect failing db (
      do row <- SELECT_balance username;
      ret (match row with
           | None => false
           | Some b => negb (Qlt_bool b amount)
           end))).

Definition withdraw_write (failing : option nat) (now : string)
    (db : database) (username : string) (amount : Q)
    : outcome bool * database :=
  connect failing db (
    try (
      run UPDATE_balance (fun b => b - amount) username;
      run INSERT_transaction username "Withdraw" amount now "";
      run commit;
      ret true )
    except any_Error => (
      run rollback;
      ret false )).

(** The fault counter once the SELECT has returned. *)
Definition after_SELECT (failing : option nat) : option nat :=
  match failing with
  | Some (S k) => Some k
  | _ => None
  end.

(** Two withdrawals from one account at the same time, in the order
    test, test, write, write: what the two calls return and what is
    committed in the end. *)
Definition racing_withdrawals (db : database) (username : string)
    (first second : Q) (now now' : string)
    : outcome bool * outcome bool * database :=
  match withdraw_test None db username first,
        withdraw_test None db username second with
  | Return true, Return true =>
      let (r1, db1) := withdraw_write None now db username first in
      let (r2, db2) := withdraw_write None now' db1 username second in
      (r1, r2, db2)
  | Return true, r2 =>
      let (r1, db1) := withdraw_write None now db username first in
      (r1, r2, db1)
  | r1, Return true =>
      let (r2, db2) := withdraw_write None now' db username second in
      (r1, r2, db2)
  | r1, r2 => (r1, r2, db)
  end.

(** ** The same tables with the numbers the code has *)

(** For the claims about the value of a balance the exact amounts above
    are not enough: [amount] is a Python [float] and [balance] a REAL
    column, both IEEE doubles.  In this module they are the kernel's
    binary64 floats.  A REAL column holds a double or NULL; SQLite turns
    a NaN into NULL when it is bound or computed, and NULL spreads
    through [+] and [-] as NaN does, so NaN stands for NULL in [balance]
    and [amount].  Python reads it as [None]: comparing it raises
    [TypeError].  [get_connection()] is the first call that can raise. *)
Module real.

Record user := mk_user { password : string; balance : float }.

Record txn := mk_txn {
  id : Z;
  username : string;
  type : string;
  amount : float;
  timestamp : string;
  other_party : string
}.

Record database := mk_db {
  users : gmap string user;
  transactions : list txn;
  sqlite_sequence : Z
}.

Definition create_tables : database :=
  {| users := ∅; transactions := []; sqlite_sequence := 0 |}.

(** [TypeError] is not a [sqlite3.Error]. *)
Inductive exception := IntegrityError | OperationalError | TypeError.

Inductive outcome (A : Type) :=
| Return (a : A)
| Raise (e : exception).
Arguments Return {A} a.
Arguments Raise {A} e.

Record connection := mk_conn {
  committed : database;
  current : database;
  failing : option nat
}.

Definition cursor (A : Type) := connection -> outcome A * connection.

Definition ret {A} (a : A) : cursor A := fun c => (Return a, c).

Definition bind {A B} (m : cursor A) (k : A -> cursor B) : cursor B :=
  fun c => match m c with
           | (Return a, c') => k a c'
           | (Raise e, c') => (Raise e, c')
           end.

Definition try_except {A} (m : cursor A) (catches : exception -> bool)
    (h : cursor A) : cursor A :=
  fun c => match m c with
           | (Return a, c') => (Return a, c')
           | (Raise e, c') => if catches e then h c' else (Raise e, c')
           end.

Definition sqlite3_Error (e : exception) : bool :=
  match e with TypeError => false | _ => true end.

Definition sqlite3_IntegrityError (e : exception) : bool :=
  match e with IntegrityError => true | _ => false end.

Definition call : cursor unit :=
  fun c => match failing c with
           | None => (Return tt, c)
           | Some O =>
               (Raise OperationalError,
                {| committed := committed c; current := current c;
                   failing := None |})
           | Some (S n) =>
               (Return tt,
                {| committed := committed c; current := current c;
                   failing := Some n |})
           end.

Definition read {A} (f : database -> A) : cursor A :=
  fun c => (Return (f (current c)), c).

Definition modify (f : database -> database) : cursor unit :=
  fun c => (Return tt,
            {| committed := committed c; current := f (current c);
               failing := failing c |}).

Definition raise {A} (e : exception) : cursor A := fun c => (Raise e, c).

Definition execute_BEGIN : cursor unit := call.

Definition commit : cursor unit :=
  bind call (fun _ c =>
    (Return tt,
     {| committed := current c; current := current c;
        failing := failing c |})).

Definition rollback : cursor unit :=
  fun c => (Return tt,
            {| committed := committed c; current := committed c;
               failing := failing c |}).

(** [conn = get_connection()], the body, [finally: conn.close()]. *)
Definition connect {A} (failing : option nat) (db : database)
    (m : cursor A) : outcome A * database :=
  let (r, c) :=
    bind call (fun _ => m)
      {| committed := db; current := db; failing := failing |} in
  (r, committed c).

#[local, warning="-notation-overridden"]
Notation "'do' x <- m ; k" := (bind m (fun x => k))
  (at level 10, x name, m at level 100, k at level 200).
#[local, warning="-notation-overridden"]
Notation "'run' m ; k" := (bind m (fun _ => k))
  (at level 10, m at level 100, k at level 200).
#[local, warning="-notation-overridden"]
Notation "'try' m 'except' E => h" := (try_except m E h)
  (at level 10, m at level 200, E at level 9, h at level 200).

Definition SELECT_balance (name : string) : cursor (option float) :=
  run call;
  read (fun db => balance <$> users db !! name).

Definition SELECT_username (name : string) : cursor (option string) :=
  run call;
  read (fun db => (fun _ => name) <$> users db !! name).

Definition INSERT_user (name hashed : string) (bal : float) : cursor unit :=
  run call;
  do taken <- read (fun db => users db !! name);
  match taken with
  | Some _ => raise IntegrityError
  | None =>
      modify (fun db =>
        {| users := <[name := mk_user hashed bal]> (users db);
           transactions := transactions db;
           sqlite_sequence := sqlite_sequence db |})
  end.

Definition UPDATE_balance (f : float -> float) (name : string)
    : cursor unit :=
  run call;
  modify (fun db =>
    {| users := alter (fun u => mk_user (password u) (f (balance u))) name
                  (users db);
       transactions := transactions db;
       sqlite_sequence := sqlite_sequence db |}).

Definition INSERT_transaction (name ty : string) (amt : float)
    (stamp other : string) : cursor unit :=
  run call;
  modify (fun db =>
    {| users := users db;
       transactions :=
         transactions db ++
           [mk_txn (sqlite_sequence db + 1) name ty amt stamp other];
       sqlite_sequence := (sqlite_sequence db + 1)%Z |}).

(** Python's [row[0] < amount]: [row[0]] is [None] for a NULL balance. *)
Definition row_lt (b amount : float) : cursor bool :=
  if is_nan b then raise TypeError else ret (b <? amount)%float.

Definition signup (failing : option nat) (hashed : string)
    (db : database) (username password : string) : outcome bool * database :=
  if not_ username || not_ password then (Return false, db)
  else
    connect failing db (
      try (
        run INSERT_user username hashed 0%float;
        run commit;
        ret true )
      except sqlite3_IntegrityError =>
        ret false).

Definition deposit (failing : option nat) (now : string) (db : database)
    (username : string) (amount : float) : outcome bool * database :=
  if (amount <=? 0)%float then (Return false, db)
  else
    connect failing db (
      try (
        run UPDATE_balance (fun b => b + amount)%float username;
        run INSERT_transaction username "Deposit" amount now "";
        run commit;
        ret true )
      except sqlite3_Error => (
        run rollback;
        ret false )).

Definition withdraw (failing : option nat) (now : string) (db : database)
    (username : string) (amount : float) : outcome bool * database :=
  if (amount <=? 0)%float then (Return false, db)
  else
    connect failing db (
      do row <- SELECT_balance username;
      match row with
      | None => ret false
      | Some b =>
          do short <- row_lt b amount;
          if short then ret false
          else
            try (
              run UPDATE_balance (fun b => b - amount)%float username;
              run INSERT_transaction username "Withdraw" amount now "";
              run commit;
              ret true )
            except sqlite3_Error => (
              run rollback;
              ret false )
      end).

Definition transfer (failing : option nat) (now : string) (db : database)
    (sender receiver : string) (amount : float) : outcome bool * database :=
  if (amount <=? 0)%float || not_ sender || not_ receiver
     || bool_decide (sender = receiver)
  then (Return false, db)
  else
    connect failing db (
      do sender_row <- SELECT_balance sender;
      do receiver_row <- SELECT_username receiver;
      match sender_row, receiver_row with
      | Some b, Some _ =>
          do short <- row_lt b amount;
          if short then ret false
          else
            try (
              run execute_BEGIN;
              run UPDATE_balance (fun b => b - amount)%float sender;
              run UPDATE_balance (fun b => b + amount)%float receiver;
              run INSERT_transaction sender "transfer_out" amount now
                    receiver;
              run INSERT_transaction receiver "transfer_in" amount now
                    sender;
              run commit;
              ret true )
            except sqlite3_Error => (
              run rollback;
              ret false )
      | _, _ => ret false
      end).

(** What a committed withdrawal and a committed transfer leave. *)
Definition withdraw_committed (now : string) (db : database)
    (name : string) (a : float) : database :=
  {| users := alter (fun u => mk_user (password u) (balance u - a)%float)
                name (users db);
     transactions :=
       transactions db ++
         [mk_txn (sqlite_sequence db + 1) name "Withdraw" a now ""];
     sqlite_sequence := (sqlite_sequence db + 1)%Z |}.

Definition transfer_committed (now : string) (db : database)
    (sender receiver : string) (a : float) : database :=
  {| users :=
       alter (fun u => mk_user (password u) (balance u + a)%float) receiver
         (alter (fun u => mk_user (password u) (balance u - a)%float) sender
            (users db));
     transactions :=
       (transactions db ++
          [mk_txn (sqlite_sequence db + 1) sender "transfer_out" a now
             receiver]) ++
         [mk_txn (sqlite_sequence db + 1 + 1) receiver "transfer_in" a now
            sender];
     sqlite_sequence := (sqlite_sequence db + 1 + 1)%Z |}.

End real.

(** Two accounts for the checks in doubles: alice holds 10.0 and bob
    2^54 = 18014398509481984.0, both deposited after signup. *)
Definition big_saver : real.database :=
  snd (real.deposit None "2025-01-01 10:03:00"
         (snd (real.deposit None "2025-01-01 10:02:00"
                 (snd (real.signup None "hash-b"
                         (snd (real.signup None "hash-a" real.create_tables
                                 "alice" "pw-a"))
                         "bob" "pw-b"))
                 "alice" 10%float))
         "bob" 18014398509481984%float).

(** Every row names an account, Deposit rows included. *)
Definition rows_have_accounts (db : database) : Prop :=
  Forall (fun t => is_Some (users db !! username t)) (transactions db).

(** * Proofs *)

(** ** Each function, call by call *)

Ltac by_calls failing :=
  destruct failing as [[|[|[|[|[|[|[|[|?]]]]]]]]|]; reflexivity.

Lemma signup_eq failing hashed db name pw :
  signup failing hashed db name pw =
    if not_ name || not_ pw then (Return false, db)
    else match failing with
         | Some O => (Raise OperationalError, db)
         | _ =>
           match users db !! name with
           | Some _ => (Return false, db)
           | None =>
               if survives 2 failing
               then (Return true, signup_committed hashed db name)
               else (Raise OperationalError, db)
           end
         end.
Proof.
  unfold signup. destruct (not_ name || not_ pw); [reflexivity|].
  unfold connect, try_except, INSERT_user, bind, call, read; simpl.
  destruct failing as [[|[|?]]|]; simpl; try reflexivity;
    destruct (users db !! name); reflexivity.
Qed.

Lemma deposit_eq failing now db name a :
  deposit failing now db name a =
    if Qle_bool a 0 then (Return false, db)
    else if survives 3 failing
         then (Return true, deposit_committed now db name a)
         else (Return false, db).
Proof.
  unfold deposit. destruct (Qle_bool a 0); [reflexivity|].
  by_calls failing.
Qed.

Lemma withdraw_eq failing now db name a :
  withdraw failing now db name a =
    if Qle_bool a 0 then (Return false, db)
    else match failing with
         | Some O => (Raise OperationalError, db)
         | _ =>
           match users db !! name with
           | None => (Return false, db)
           | Some u =>
               if Qlt_bool (balance u) a then (Return false, db)
               else if survives 4 failing
                    then (Return true, withdraw_committed now db name a)
                    else (Return false, db)
           end
         end.
Proof.
  unfold withdraw. destruct (Qle_bool a 0); [reflexivity|].
  unfold connect, SELECT_balance, bind, call, read; simpl.
  destruct failing as [[|k]|]; simpl; try reflexivity;
    (destruct (users db !! name) as [u|]; simpl; [|reflexivity]);
    (destruct (Qlt_bool (balance u) a); [reflexivity|]).
  - destruct k as [|[|[|?]]]; reflexivity.
  - reflexivity.
Qed.

Lemma transfer_eq failing now db sender receiver a :
  transfer failing now db sender receiver a =
    if Qle_bool a 0 || not_ sender || not_ receiver
       || bool_decide (sender = receiver)
    then (Return false, db)
    else if negb (survives 2 failing) then (Raise OperationalError, db)
    else
      match users db !! sender, users db !! receiver with
      | Some u, Some _ =>
          if Qlt_bool (balance u) a then (Return false, db)
          else if survives 8 failing
               then (Return true, transfer_committed now db sender receiver a)
               else (Return false, db)
      | _, _ => (Return false, db)
      end.
Proof.
  unfold transfer.
  destruct (Qle_bool a 0 || not_ sender || not_ receiver
            || bool_decide (sender = receiver)); [reflexivity|].
  unfold connect, SELECT_balance, SELECT_username, bind, call, read; simpl.
  destruct failing as [[|[|k]]|]; simpl; try reflexivity;
    (destruct (users db !! sender) as [u|]; simpl;
       [|destruct (users db !! receiver); reflexivity]);
    (destruct (users db !! receiver) as [v|]; simpl; [|reflexivity]);
    (destruct (Qlt_bool (balance u) a); [reflexivity|]).
  - destruct k as [|[|[|[|[|[|?]]]]]]; reflexivity.
  - reflexivity.
Qed.

Lemma get_balance_eq failing db name :
  get_balance failing db name =
    match failing with
    | Some O => (Raise OperationalError, db)
    | _ => (Return (match users db !! name with
                    | Some u => balance u
                    | None => 0
                    end), db)
    end.
Proof.
  unfold get_balance, connect, SELECT_balance, bind, call, read, ret.
  destruct failing as [[|?]|]; simpl; try reflexivity;
    destruct (users db !! name); reflexivity.
Qed.

Lemma get_transactions_eq failing db name :
  get_transactions failing db name =
    match failing with
    | Some O => (Raise OperationalError, db)
    | _ => (Return (columns <$>
                      ORDER_BY_id (WHERE_username name (transactions db))),
            db)
    end.
Proof.
  unfold get_transactions, connect, SELECT_transactions, bind, call, read.
  destruct failing as [[|?]|]; reflexivity.
Qed.

(** ** Comparisons on amounts *)

Lemma Qle_bool_false (x y : Q) : Qle_bool x y = false <-> y < x.
Proof.
  split; intros H.
  - apply Qnot_le_lt. intros Hle. apply Qle_bool_iff in Hle. congruence.
  - destruct (Qle_bool x y) eqn:E; [|reflexivity].
    apply Qle_bool_iff in E. lra.
Qed.

Lemma Qlt_bool_false (x y : Q) : Qlt_bool x y = false <-> y <= x.
Proof.
  unfold Qlt_bool. rewrite negb_false_iff. apply Qle_bool_iff.
Qed.

Lemma Qlt_bool_true (x y : Q) : Qlt_bool x y = true <-> x < y.
Proof.
  unfold Qlt_bool. rewrite negb_true_iff. apply Qle_bool_false.
Qed.

(** ** When the mutating functions return [True], and what they leave *)

Lemma deposit_true failing now db name a db' :
  deposit failing now db name a = (Return true, db') ->
  0 < a /\ db' = deposit_committed now db name a.
Proof.
  rewrite deposit_eq. destruct (Qle_bool a 0) eqn:Ea; [discriminate|].
  apply Qle_bool_false in Ea.
  destruct (survives 3 failing); intros [= <-]. split; [assumption|reflexivity].
Qed.

Lemma deposit_not_true failing now db name a r db' :
  deposit failing now db name a = (r, db') -> r <> Return true -> db' = db.
Proof.
  rewrite deposit_eq.
  destruct (Qle_bool a 0); [|destruct (survives 3 failing)];
    intros [= <- <-]; congruence.
Qed.

Lemma withdraw_true failing now db name a db' :
  withdraw failing now db name a = (Return true, db') ->
  0 < a /\ db' = withdraw_committed now db name a /\
  exists u, users db !! name = Some u /\ a <= balance u.
Proof.
  rewrite withdraw_eq. destruct (Qle_bool a 0) eqn:Ea; [discriminate|].
  apply Qle_bool_false in Ea. intros H.
  assert (match users db !! name with
          | Some u =>
              if Qlt_bool (balance u) a then (Return false, db)
              else if survives 4 failing
                   then (Return true, withdraw_committed now db name a)
                   else (Return false, db)
          | None => (Return false, db)
          end = (Return true, db')) as H'
    by (destruct failing as [[|?]|]; [discriminate|assumption..]).
  clear H. destruct (users db !! name) as [u|]; [|discriminate].
  destruct (Qlt_bool (balance u) a) eqn:Eb; [discriminate|].
  apply Qlt_bool_false in Eb.
  destruct (survives 4 failing); inversion H'; subst. eauto.
Qed.

Lemma withdraw_not_true failing now db name a r db' :
  withdraw failing now db name a = (r, db') -> r <> Return true -> db' = db.
Proof.
  rewrite withdraw_eq. intros H Hr.
  destruct (Qle_bool a 0); [congruence|].
  destruct failing as [[|k]|]; [congruence|..];
    (destruct (users db !! name) as [u|]; [|congruence]);
    (destruct (Qlt_bool (balance u) a); [congruence|]).
  - destruct (survives 4 (Some (S k))); congruence.
  - simpl in H. congruence.
Qed.

Lemma transfer_true failing now db sender receiver a db' :
  transfer failing now db sender receiver a = (Return true, db') ->
  0 < a /\ sender <> receiver /\
  db' = transfer_committed now db sender receiver a /\
  exists u v,
    users db !! sender = Some u /\ users db !! receiver = Some v /\
    a <= balance u.
Proof.
  rewrite transfer_eq.
  destruct (Qle_bool a 0) eqn:Ea; [discriminate|].
  apply Qle_bool_false in Ea.
  destruct (not_ sender); [discriminate|].
  destruct (not_ receiver); [discriminate|].
  destruct (bool_decide (sender = receiver)) eqn:Eq; [discriminate|].
  apply bool_decide_eq_false in Eq. simpl.
  destruct (survives 2 failing); [simpl|discriminate].
  destruct (users db !! sender) as [u|]; [|discriminate].
  destruct (users db !! receiver) as [v|]; [|discriminate].
  destruct (Qlt_bool (balance u) a) eqn:Eb; [discriminate|].
  apply Qlt_bool_false in Eb.
  destruct (survives 8 failing); inversion 1; subst. eauto 10.
Qed.

Lemma transfer_not_true failing now db sender receiver a r db' :
  transfer failing now db sender receiver a = (r, db') ->
  r <> Return true -> db' = db.
Proof.
  rewrite transfer_eq. intros H Hr.
  destruct (Qle_bool a 0 || not_ sender || not_ receiver
            || bool_decide (sender = receiver)); [congruence|].
  destruct (negb (survives 2 failing)); [congruence|].
  destruct (users db !! sender) as [u|]; [|congruence].
  destruct (users db !! receiver) as [v|]; [|congruence].
  destruct (Qlt_bool (balance u) a); [congruence|].
  destruct (survives 8 failing); congruence.
Qed.

Lemma signup_cases failing hashed db name pw :
  snd (signup failing hashed db name pw) = db \/
  (users db !! name = None /\
   snd (signup failing hashed db name pw) = signup_committed hashed db name).
Proof.
  rewrite signup_eq. destruct (not_ name || not_ pw); [by left|].
  destruct failing as [[|k]|]; [by left|..];
    (destruct (users db !! name); [by left|]).
  - destruct (survives 2 (Some (S k))); [by right|by left].
  - by right.
Qed.

Lemma opened_users :
  users opened !! "alice" = Some (mk_user "hash-a" (0 + 100)) /\
  users opened !! "bob" = Some (mk_user "hash-b" 0) /\
  users opened !! "ghost" = None.
Proof. vm_compute. repeat split; reflexivity. Qed.

Lemma opened_transactions :
  transactions opened =
    [mk_txn 1 "alice" "Deposit" 100 "2025-01-01 10:02:00" ""] /\
  sqlite_sequence opened = 1%Z.
Proof. vm_compute. split; reflexivity. Qed.

(** ** deposit *)

(** C3.  [deposit] does not look whether the UPDATE matched a row:
    with no account named "ghost", [deposit("ghost", 100.0)] returns
    [True] and a Deposit row for "ghost" is committed, although the
    [users] table has no such account (here, and after the call). *)
Theorem deposit_unknown_username_succeeds :
  users opened !! "ghost" = None /\
  deposit None "2025-01-01 10:03:00" opened "ghost" 100 =
    (Return true,
     {| users := users opened;
        transactions :=
          transactions opened ++
            [mk_txn 2 "ghost" "Deposit" 100 "2025-01-01 10:03:00" ""];
        sqlite_sequence := 2 |}).
Proof.
  split; [vm_compute; reflexivity|].
  rewrite deposit_eq. vm_compute. reflexivity.
Qed.

(** The part of C3 the code does have: a deposit that does not return
    [True] changes nothing, and an amount that is not positive is
    refused. *)
Lemma deposit_refused failing now db name a :
  a <= 0 -> deposit failing now db name a = (Return false, db).
Proof.
  intros Ha. rewrite deposit_eq.
  apply Qle_bool_iff in Ha. by rewrite Ha.
Qed.

Lemma deposit_existing now db name a u :
  users db !! name = Some u -> 0 < a ->
  exists db',
    deposit None now db name a = (Return true, db') /\
    users db' !! name = Some (mk_user (password u) (balance u + a)) /\
    (forall w, w <> name -> users db' !! w = users db !! w) /\
    transactions db' =
      transactions db ++
        [mk_txn (sqlite_sequence db + 1) name "Deposit" a now ""].
Proof.
  intros Hu Ha. exists (deposit_committed now db name a).
  rewrite deposit_eq. apply Qle_bool_false in Ha. rewrite Ha. simpl.
  repeat split.
  - by rewrite lookup_alter_eq, Hu.
  - intros w Hw. by rewrite lookup_alter_ne by congruence.
Qed.

(** ** The ledger against the balance *)

(** C1.  Because of the same missing check, a Deposit row can be on the
    log before the account exists: after [deposit("carol", 100.0)] and
    then [signup("carol", ...)], carol's balance is the opening 0 while
    her ledger rows add up to 100. *)
Theorem ledger_differs_from_balance :
  let db :=
    replay
      [ mk_invocation None "2025-01-01 10:00:00" (Deposit "carol" 100);
        mk_invocation None "2025-01-01 10:01:00"
          (Signup "carol" "pw-c" "hash-c") ] in
  users db !! "carol" = Some (mk_user "hash-c" 0) /\
  transactions db =
    [mk_txn 1 "carol" "Deposit" 100 "2025-01-01 10:00:00" ""] /\
  ledger_balance "carol" db = 0 + 100 /\
  ~ (0 == ledger_balance "carol" db).
Proof.
  vm_compute. repeat split; try reflexivity. discriminate.
Qed.

(** ** get_balance *)



(** ** The states a sequence of calls can reach *)

Lemma true_or_not (r : outcome bool) : r = Return true \/ r <> Return true.
Proof. destruct r as [[|]|e]; [by left|by right..]. Qed.

Lemma serve_step db i : step db (serve db i).
Proof.
  destruct i as [failing now [name pw hashed|name a|name a|sender receiver a]];
    unfold serve; simpl.
  - destruct (signup_cases failing hashed db name pw) as [->|[Hn ->]];
      [constructor|by constructor].
  - destruct (deposit failing now db name a) as [r db'] eqn:E.
    destruct (true_or_not r) as [->|Hr].
    + apply deposit_true in E as [Ha ->]. by constructor.
    + apply deposit_not_true in E as ->; [constructor|done].
  - destruct (withdraw failing now db name a) as [r db'] eqn:E.
    destruct (true_or_not r) as [->|Hr].
    + apply withdraw_true in E as (Ha & -> & u & Hu & Hb).
      by econstructor.
    + apply withdraw_not_true in E as ->; [constructor|done].
  - destruct (transfer failing now db sender receiver a) as [r db'] eqn:E.
    destruct (true_or_not r) as [->|Hr].
    + apply transfer_true in E as (Ha & Hne & -> & u & v & Hu & Hv & Hb).
      by econstructor.
    + apply transfer_not_true in E as ->; [constructor|done].
Qed.

Lemma replay_snoc l i : replay (l ++ [i]) = serve (replay l) i.
Proof. unfold replay. by rewrite fold_left_app. Qed.

(** Induction over the states a sequence of calls can reach. *)
Lemma replay_ind (P : database -> Prop) :
  P create_tables ->
  (forall db db', P db -> step db db' -> P db') ->
  forall l, P (replay l).
Proof.
  intros H0 Hstep l. induction l as [|i l IH] using rev_ind; [exact H0|].
  rewrite replay_snoc. eapply Hstep; [exact IH|apply serve_step].
Qed.

(** ** Balances never go below zero *)

Lemma step_solvent db db' : solvent db -> step db db' -> solvent db'.
Proof.
  intros Hdb Hstep name w.
  destruct Hstep as [|hashed name' Hfree|now name' a Ha|now name' a u Ha Hu Hle
                    |now sender receiver a u v Ha Hne Hu Hv Hle];
    simpl.
  - apply Hdb.
  - rewrite lookup_insert. case_decide; [|apply Hdb].
    intros [= <-]. simpl. lra.
  - rewrite lookup_alter. case_decide; [|apply Hdb]. subst.
    destruct (users db !! name) as [u|] eqn:Hu; [|done].
    intros [= <-]. simpl. specialize (Hdb _ _ Hu). lra.
  - rewrite lookup_alter. case_decide; [|apply Hdb]. subst.
    rewrite Hu. intros [= <-]. simpl. lra.
  - rewrite lookup_alter. case_decide.
    + subst. rewrite lookup_alter_ne, Hv by congruence.
      intros [= <-]. simpl. specialize (Hdb _ _ Hv). lra.
    + rewrite lookup_alter. case_decide; [|apply Hdb]. subst.
      rewrite Hu. intros [= <-]. simpl. lra.
Qed.

(** Whole calls, one after the other, on exact amounts: after any
    sequence of signups, deposits, withdrawals and transfers on the
    fresh tables every balance is at least 0.  Calls that overlap are
    not of this kind; see [racing_withdrawals]. *)
Lemma balance_never_negative (l : list invocation) name u :
  users (replay l) !! name = Some u -> 0 <= balance u.
Proof.
  revert name u. change (solvent (replay l)). apply replay_ind.
  - intros name u. unfold create_tables. simpl.
    rewrite lookup_empty. discriminate.
  - apply step_solvent.
Qed.

(** ** The two rows of a transfer *)

Lemma transfer_appends failing now db sender receiver a db' :
  transfer failing now db sender receiver a = (Return true, db') ->
  transactions db' =
    transactions db ++
      [ transfer_out_row now db sender receiver a;
        transfer_in_row now db sender receiver a ].
Proof.
  intros H. apply transfer_true in H as (_ & _ & -> & _).
  simpl. by rewrite <- app_assoc.
Qed.

(** C7, as the code has it.  A transfer that returns [True] appends
    exactly two rows, first a [transfer_out] row of the sender and then a
    [transfer_in] row of the receiver, with the same amount and each
    naming the other account in [other_party].  The table has no column
    for an operation id: the only id is the row's own, and the second
    row's id is the first row's plus one. *)
Theorem transfer_rows_paired failing now db sender receiver a db' :
  transfer failing now db sender receiver a = (Return true, db') ->
  exists o i,
    transactions db' = transactions db ++ [o; i] /\
    type o = "transfer_out" /\ type i = "transfer_in" /\
    amount o = a /\ amount i = a /\
    username o = sender /\ other_party o = receiver /\
    username i = receiver /\ other_party i = sender /\
    id i = (id o + 1)%Z.
Proof.
  intros H. apply transfer_appends in H.
  exists (transfer_out_row now db sender receiver a),
         (transfer_in_row now db sender receiver a).
  split; [exact H|]. repeat split.
Qed.

Lemma transfer_rows_paired_witness :
  exists o i,
    transactions
      (snd (transfer None "2025-01-01 10:03:00" opened "alice" "bob" 40))
      = transactions opened ++ [o; i] /\
    id i = (id o + 1)%Z.
Proof.
  destruct (transfer_rows_paired None "2025-01-01 10:03:00" opened
              "alice" "bob" 40
              (snd (transfer None "2025-01-01 10:03:00" opened
                      "alice" "bob" 40)))
    as (o & i & Ht & _ & _ & _ & _ & _ & _ & _ & _ & Hid).
  - rewrite transfer_eq. vm_compute. reflexivity.
  - exists o, i. split; [exact Ht|exact Hid].
Defined.

(** C7 as stated fails: the rows of one transfer do not carry a common
    id.  After alice sends bob 40, the log holds her deposit and the two
    transfer rows, whose ids are 2 and 3. *)
Lemma transfer_rows_have_different_ids :
  let db' :=
    snd (transfer None "2025-01-01 10:03:00" opened "alice" "bob" 40) in
  fst (transfer None "2025-01-01 10:03:00" opened "alice" "bob" 40)
    = Return true /\
  transactions db' =
    [ mk_txn 1 "alice" "Deposit" 100 "2025-01-01 10:02:00" "";
      mk_txn 2 "alice" "transfer_out" 40 "2025-01-01 10:03:00" "bob";
      mk_txn 3 "bob" "transfer_in" 40 "2025-01-01 10:03:00" "alice" ] /\
  ~ (exists o i, transactions db' = transactions opened ++ [o; i] /\
                 id o = id i).
Proof.
  rewrite transfer_eq. vm_compute. repeat split.
  intros (o & i & [= <- <-] & Hid). discriminate.
Qed.

(** C10.  A transfer that returns [True] appends two rows with one and
    the same timestamp string, the one computed before the inserts.
    The rows are known column by column: besides the timestamp they
    share the amount, each has the other's username as [other_party],
    and their ids differ. *)
Theorem transfer_rows_share_timestamp failing now db sender receiver a db' :
  transfer failing now db sender receiver a = (Return true, db') ->
  exists o i,
    transactions db' = transactions db ++ [o; i] /\
    timestamp o = now /\ timestamp i = now /\
    timestamp o = timestamp i /\
    o = mk_txn (sqlite_sequence db + 1) sender "transfer_out" a now receiver /\
    i = mk_txn (sqlite_sequence db + 2) receiver "transfer_in" a now sender /\
    id o <> id i.
Proof.
  intros H. apply transfer_appends in H.
  exists (transfer_out_row now db sender receiver a),
         (transfer_in_row now db sender receiver a).
  split; [exact H|]. unfold transfer_out_row, transfer_in_row, next_id.
  repeat split; simpl; try lia.
  f_equal. lia.
Qed.

Lemma transfer_rows_share_timestamp_witness :
  exists o i,
    transactions
      (snd (transfer None "2025-01-01 10:03:00" opened "alice" "bob" 40))
      = transactions opened ++ [o; i] /\
    timestamp o = "2025-01-01 10:03:00" /\
    timestamp i = "2025-01-01 10:03:00".
Proof.
  destruct (transfer_rows_share_timestamp None "2025-01-01 10:03:00" opened
              "alice" "bob" 40
              (snd (transfer None "2025-01-01 10:03:00" opened
                      "alice" "bob" 40)))
    as (o & i & Ht & Ho & Hi & _).
  - rewrite transfer_eq. vm_compute. reflexivity.
  - exists o, i. repeat split; assumption.
Defined.

(** ** get_transactions *)

Lemma numbered_append (l : list txn) (n m : Z) (t : txn) :
  StronglySorted id_lt l ->
  Forall (fun t => (id t <= n)%Z) l ->
  (n < id t)%Z -> (id t <= m)%Z ->
  StronglySorted id_lt (l ++ [t]) /\
  Forall (fun t => (id t <= m)%Z) (l ++ [t]).
Proof.
  intros Hs Hb Hlt Hm. split.
  - apply StronglySorted_app. repeat split; [|exact Hs|repeat constructor].
    intros t1 t2 H1 <-%list_elem_of_singleton.
    rewrite Forall_forall in Hb. specialize (Hb _ H1). unfold id_lt. lia.
  - apply Forall_app. split; [|by apply Forall_singleton].
    eapply Forall_impl; [exact Hb|]. simpl. intros. lia.
Qed.

Lemma step_numbered db db' : numbered db -> step db db' -> numbered db'.
Proof.
  intros [Hs Hb] Hstep.
  destruct Hstep as [|hashed name Hfree|now name a Ha|now name a u Ha Hu Hle
                    |now sender receiver a u v Ha Hne Hu Hv Hle];
    unfold numbered; simpl.
  - by split.
  - by split.
  - apply (numbered_append _ (sqlite_sequence db)); unfold next_id; simpl;
      try done; lia.
  - apply (numbered_append _ (sqlite_sequence db)); unfold next_id; simpl;
      try done; lia.
  - assert (StronglySorted id_lt
              (transactions db ++ [transfer_out_row now db sender receiver a])
            /\ Forall (fun t => (id t <= next_id db)%Z)
              (transactions db ++ [transfer_out_row now db sender receiver a]))
      as [Hs1 Hb1]
      by (apply (numbered_append _ (sqlite_sequence db));
          unfold transfer_out_row, next_id; simpl; try done; lia).
    apply (numbered_append _ (next_id db));
      unfold transfer_in_row, next_id; simpl; try done; lia.
Qed.

Lemma replay_numbered l : numbered (replay l).
Proof.
  apply replay_ind; [|apply step_numbered].
  split; simpl; constructor.
Qed.

Lemma insert_by_id_least t l :
  Forall (id_lt t) l -> insert_by_id t l = t :: l.
Proof.
  destruct l as [|t' l]; [reflexivity|].
  intros [Hlt _]%Forall_cons. simpl. unfold id_lt in Hlt.
  destruct (Z.leb_spec (id t) (id t')); [reflexivity|lia].
Qed.

(** On rows whose ids already ascend, [ORDER BY id ASC] changes nothing. *)
Lemma ORDER_BY_id_sorted l : StronglySorted id_lt l -> ORDER_BY_id l = l.
Proof.
  induction 1 as [|t l Hs IH Hall]; [reflexivity|].
  simpl. fold (ORDER_BY_id l). rewrite IH. by apply insert_by_id_least.
Qed.

Lemma WHERE_username_sorted name l :
  StronglySorted id_lt l -> StronglySorted id_lt (WHERE_username name l).
Proof.
  unfold WHERE_username. induction 1 as [|t l Hs IH Hall]; [constructor|].
  rewrite filter_cons. case_decide; [|exact IH].
  constructor; [exact IH|].
  rewrite Forall_forall in Hall |- *.
  intros t' [_ Hin]%list_elem_of_filter. by apply Hall.
Qed.

Lemma WHERE_username_none name (l : list txn) :
  (forall t, t ∈ l -> username t <> name) -> WHERE_username name l = [].
Proof.
  unfold WHERE_username. induction l as [|t ts IH]; intros Hnone;
    [reflexivity|].
  rewrite filter_cons. case_decide as Ht.
  - destruct (Hnone t (list_elem_of_here _ _) Ht).
  - apply IH. intros t' Hin. apply Hnone. by apply list_elem_of_further.
Qed.

(** C8.  In every state a sequence of calls can reach,
    [get_transactions(username)] returns the rows whose [username]
    column is the given one, and only those, each as
    [(type, amount, timestamp, other_party)], in the order they were
    inserted, which is the order of ascending id; a username without
    rows, whether or not it has an account, gets the empty list and no
    error. *)
Theorem get_transactions_spec (l : list invocation) name :
  get_transactions None (replay l) name =
    (Return (columns <$> WHERE_username name (transactions (replay l))),
     replay l) /\
  StronglySorted id_lt (WHERE_username name (transactions (replay l))) /\
  (forall t, t ∈ WHERE_username name (transactions (replay l)) <->
             username t = name /\ t ∈ transactions (replay l)) /\
  ((forall t, t ∈ transactions (replay l) -> username t <> name) ->
   get_transactions None (replay l) name = (Return [], replay l)).
Proof.
  destruct (replay_numbered l) as [Hs _].
  pose proof (WHERE_username_sorted name _ Hs) as Hw.
  assert (get_transactions None (replay l) name =
          (Return (columns <$> WHERE_username name (transactions (replay l))),
           replay l)) as Hget
    by (rewrite get_transactions_eq; by rewrite ORDER_BY_id_sorted).
  split; [exact Hget|]. split; [exact Hw|]. split.
  - intros t. unfold WHERE_username. by rewrite list_elem_of_filter.
  - intros Hnone. rewrite Hget.
    by rewrite (WHERE_username_none name _ Hnone).
Qed.

Lemma get_transactions_spec_witness :
  get_transactions None
    (replay [mk_invocation None "2025-01-01 10:00:00"
               (Signup "alice" "pw-a" "hash-a")]) "ghost"
  = (Return [],
     replay [mk_invocation None "2025-01-01 10:00:00"
               (Signup "alice" "pw-a" "hash-a")]).
Proof.
  apply (get_transactions_spec
           [mk_invocation None "2025-01-01 10:00:00"
              (Signup "alice" "pw-a" "hash-a")] "ghost").
  vm_compute. intros t Hin. inversion Hin.
Defined.

(** Scenario 6: bob's history after alice sent him 40. *)
Example history_of_receiver :
  get_transactions None
    (snd (transfer None "2025-01-01 10:03:00" opened "alice" "bob" 40)) "bob"
  = (Return [("transfer_in", 40, "2025-01-01 10:03:00", "alice")],
     snd (transfer None "2025-01-01 10:03:00" opened "alice" "bob" 40)).
Proof. rewrite get_transactions_eq, transfer_eq. vm_compute. reflexivity. Qed.

(** ** Where the ledger and the balance do agree *)

Lemma signed_sum_snoc l t :
  signed_sum (l ++ [t]) = signed_sum l + signed_amount t.
Proof. unfold signed_sum. by rewrite fmap_app, fold_left_app. Qed.

Lemma WHERE_username_snoc name l t :
  WHERE_username name (l ++ [t]) =
    if decide (username t = name)
    then WHERE_username name l ++ [t]
    else WHERE_username name l.
Proof.
  unfold WHERE_username. rewrite filter_app, filter_cons, filter_nil.
  case_decide; [reflexivity|apply app_nil_r].
Qed.

Lemma audited_signup hashed db name :
  audited db -> users db !! name = None ->
  audited (signup_committed hashed db name).
Proof.
  intros Hdb Hfree name'. specialize (Hdb name').
  unfold ledger_balance in *. simpl. rewrite lookup_insert. case_decide.
  - subst. rewrite Hfree in Hdb. rewrite Hdb. reflexivity.
  - exact Hdb.
Qed.

(** One row for [name] joins the log while [f] is applied to the balance
    of [name]: the audit survives when [f] adds the row's signed amount
    and [name] has an account. *)
Lemma audited_append db name (f : user -> user) t n :
  audited db -> is_Some (users db !! name) -> username t = name ->
  (forall u, balance (f u) == balance u + signed_amount t) ->
  audited {| users := alter f name (users db);
             transactions := transactions db ++ [t];
             sqlite_sequence := n |}.
Proof.
  intros Hdb [u Hu] Ht Hf name'. specialize (Hdb name').
  unfold ledger_balance in *. simpl.
  rewrite lookup_alter, WHERE_username_snoc. case_decide as Hn.
  - subst name'. rewrite decide_True by exact Ht.
    rewrite Hu in Hdb |- *. simpl.
    rewrite signed_sum_snoc, Hf, Hdb. reflexivity.
  - rewrite decide_False by congruence. exact Hdb.
Qed.

Lemma audited_deposit now db name a :
  audited db -> is_Some (users db !! name) ->
  audited (deposit_committed now db name a).
Proof.
  intros Hdb Hu. apply audited_append; try done;
    intros u; simpl; reflexivity.
Qed.

Lemma audited_withdraw now db name a :
  audited db -> is_Some (users db !! name) ->
  audited (withdraw_committed now db name a).
Proof.
  intros Hdb Hu. apply audited_append; try done;
    intros u; simpl; reflexivity.
Qed.

Lemma audited_transfer now db sender receiver a :
  audited db -> is_Some (users db !! sender) ->
  is_Some (users db !! receiver) ->
  audited (transfer_committed now db sender receiver a).
Proof.
  intros Hdb Hs Hr.
  set (db1 := {| users := alter (debit a) sender (users db);
                 transactions :=
                   transactions db
                     ++ [transfer_out_row now db sender receiver a];
                 sqlite_sequence := next_id db |}).
  assert (audited db1) as Hdb1
    by (apply audited_append; try done; intros u; simpl; reflexivity).
  apply (audited_append db1 receiver (credit a)
           (transfer_in_row now db sender receiver a) (next_id db + 1)%Z);
    try done.
  simpl. by apply lookup_alter_is_Some.
Qed.

Lemma serve_audited db i :
  audited db ->
  (forall name a, inv_request i = Deposit name a ->
                  is_Some (users db !! name)) ->
  audited (serve db i).
Proof.
  intros Hdb Hdep.
  destruct i as [failing now [name pw hashed|name a|name a|sender receiver a]];
    unfold serve; simpl in *.
  - destruct (signup_cases failing hashed db name pw) as [->|[Hn ->]];
      [exact Hdb|by apply audited_signup].
  - destruct (deposit failing now db name a) as [r db'] eqn:E.
    destruct (true_or_not r) as [->|Hr].
    + apply deposit_true in E as [Ha ->]. apply audited_deposit; eauto.
    + by apply deposit_not_true in E as ->.
  - destruct (withdraw failing now db name a) as [r db'] eqn:E.
    destruct (true_or_not r) as [->|Hr].
    + apply withdraw_true in E as (Ha & -> & u & Hu & Hb).
      apply audited_withdraw; eauto.
    + by apply withdraw_not_true in E as ->.
  - destruct (transfer failing now db sender receiver a) as [r db'] eqn:E.
    destruct (true_or_not r) as [->|Hr].
    + apply transfer_true in E as (Ha & Hne & -> & u & v & Hu & Hv & Hb).
      apply audited_transfer; eauto.
    + by apply transfer_not_true in E as ->.
Qed.

(** As long as no deposit names a username without an account, every
    account's balance equals the opening 0 plus its signed rows. *)
Lemma ledger_matches_balance (l : list invocation) name u :
  deposits_find_account create_tables l = true ->
  users (replay l) !! name = Some u ->
  balance u == ledger_balance name (replay l).
Proof.
  intros Hl Hu.
  assert (forall db, audited db -> deposits_find_account db l = true ->
                     audited (fold_left serve l db)) as Hall.
  { clear. induction l as [|i l IH]; intros db Hdb Hl; [exact Hdb|].
    simpl in *. apply andb_true_iff in Hl as [Hi Hl].
    apply IH; [|exact Hl]. apply serve_audited; [exact Hdb|].
    intros name a Hreq. rewrite Hreq in Hi. by apply bool_decide_eq_true in Hi. }
  specialize (Hall create_tables).
  assert (audited create_tables) as H0 by (intros n; reflexivity).
  specialize (Hall H0 Hl name). fold (replay l) in Hall.
  by rewrite Hu in Hall.
Qed.

(** ** Two withdrawals, one after the other *)

(** Run one after the other on alice's 100, two withdrawals of 60 give
    one [True] and one [False] and leave 40. *)
Example withdrawals_one_after_the_other :
  let first := withdraw None "2025-01-01 10:03:00" opened "alice" 60 in
  let second := withdraw None "2025-01-01 10:03:01" (snd first) "alice" 60 in
  fst first = Return true /\
  fst second = Return false /\
  users (snd second) !! "alice" = Some (mk_user "hash-a" (0 + 100 - 60)) /\
  0 + 100 - 60 == 40.
Proof.
  cbv zeta. rewrite !withdraw_eq. vm_compute. repeat split; reflexivity.
Qed.

(** * The rest of the ledger *)

(** ** signup *)

Lemma not_false (s : string) : not_ s = false <-> s <> "".
Proof. destruct s; simpl; split; congruence. Qed.

Lemma not_true (s : string) : not_ s = true <-> s = "".
Proof. destruct s; simpl; split; congruence. Qed.

(** X1.  With a username and a password that are not empty and a
    username that is free, [signup] returns [True] and commits one new
    account with the given hash and balance 0; the other accounts and
    the log stay as they were. *)
Theorem signup_creates_account hashed db name pw :
  name <> "" -> pw <> "" -> users db !! name = None ->
  signup None hashed db name pw =
    (Return true,
     {| users := <[name := mk_user hashed 0]> (users db);
        transactions := transactions db;
        sqlite_sequence := sqlite_sequence db |}).
Proof.
  intros Hn Hp Hfree. rewrite signup_eq.
  apply not_false in Hn, Hp. by rewrite Hn, Hp, Hfree.
Qed.

Lemma signup_creates_account_witness :
  signup None "hash-c" opened "carol" "pw-c" =
    (Return true,
     {| users := <["carol" := mk_user "hash-c" 0]> (users opened);
        transactions := transactions opened;
        sqlite_sequence := sqlite_sequence opened |}).
Proof.
  apply signup_creates_account; [discriminate|discriminate|].
  vm_compute. reflexivity.
Defined.

(** X2.  [signup] never overwrites: with an empty username or password,
    or a username that already has an account, it leaves the database
    as it was whichever call raises, never returns [True], and returns
    [False] when no call raises. *)
Theorem signup_refuses failing hashed db name pw :
  name = "" \/ pw = "" \/ is_Some (users db !! name) ->
  snd (signup failing hashed db name pw) = db /\
  fst (signup failing hashed db name pw) <> Return true /\
  signup None hashed db name pw = (Return false, db).
Proof.
  intros Hwhy. rewrite !signup_eq.
  destruct (not_ name) eqn:En; [by repeat split|].
  destruct (not_ pw) eqn:Ep; [by repeat split|].
  apply not_false in En, Ep. simpl.
  destruct Hwhy as [?|[?|[u Hu]]]; [done|done|]. rewrite Hu.
  by destruct failing as [[|?]|].
Qed.

Lemma signup_refuses_witness :
  signup None "hash-x" opened "alice" "pw-x" = (Return false, opened).
Proof.
  apply (signup_refuses None "hash-x" opened "alice" "pw-x").
  right. right. vm_compute. eauto.
Defined.

(** X3.  [signup] catches [IntegrityError] only.  With a username and a
    password that are not empty: when the INSERT raises another
    database error, or the username is free and the commit raises, the
    error leaves [signup] as an exception and no account is created;
    when the username is taken, the INSERT's [IntegrityError] becomes
    the return value [False]. *)
Theorem signup_lets_errors_escape hashed db name pw :
  name <> "" -> pw <> "" ->
  signup (Some 0%nat) hashed db name pw = (Raise OperationalError, db) /\
  (users db !! name = None ->
   signup (Some 1%nat) hashed db name pw = (Raise OperationalError, db)) /\
  (is_Some (users db !! name) ->
   forall k, signup (Some (S k)) hashed db name pw = (Return false, db)).
Proof.
  intros Hn Hp. apply not_false in Hn, Hp. rewrite !signup_eq, Hn, Hp. simpl.
  split; [reflexivity|]. split.
  - by intros ->.
  - intros [u Hu] k. by rewrite signup_eq, Hn, Hp, Hu.
Qed.

Lemma signup_lets_errors_escape_witness :
  signup (Some 1%nat) "hash-c" opened "carol" "pw-c"
    = (Raise OperationalError, opened) /\
  signup (Some 1%nat) "hash-x" opened "alice" "pw-x" = (Return false, opened).
Proof.
  destruct (signup_lets_errors_escape "hash-c" opened "carol" "pw-c")
    as (_ & Hfree & _); [discriminate..|].
  destruct (signup_lets_errors_escape "hash-x" opened "alice" "pw-x")
    as (_ & _ & Htaken); [discriminate..|].
  split.
  - apply Hfree. vm_compute. reflexivity.
  - apply Htaken. vm_compute. eauto.
Defined.

(** ** login *)

Lemma login_eq checkpw failing db name pw :
  login checkpw failing db name pw =
    if not_ name || not_ pw then (Return false, db)
    else match failing with
         | Some O => (Raise OperationalError, db)
         | _ => (Return (match users db !! name with
                         | Some u => checkpw pw (password u)
                         | None => false
                         end), db)
         end.
Proof.
  unfold login. destruct (not_ name || not_ pw); [reflexivity|].
  unfold connect, SELECT_password, bind, call, read, ret.
  destruct failing as [[|?]|]; simpl; try reflexivity;
    destruct (users db !! name); reflexivity.
Qed.

(** X4.  [login] never changes the database.  When no call raises it
    returns [False] for an empty username or password and for a
    username without an account, and otherwise what [bcrypt.checkpw]
    says about the password and the stored hash. *)
Theorem login_spec checkpw db name pw :
  (forall failing, snd (login checkpw failing db name pw) = db) /\
  (name = "" \/ pw = "" \/ users db !! name = None ->
   login checkpw None db name pw = (Return false, db)) /\
  (forall u, name <> "" -> pw <> "" -> users db !! name = Some u ->
   login checkpw None db name pw = (Return (checkpw pw (password u)), db)).
Proof.
  split; [|split].
  - intros failing. rewrite login_eq.
    destruct (not_ name || not_ pw); [done|]. by destruct failing as [[|?]|].
  - intros Hwhy. rewrite login_eq.
    destruct (not_ name) eqn:En; [done|].
    destruct (not_ pw) eqn:Ep; [done|].
    apply not_false in En, Ep. simpl.
    destruct Hwhy as [?|[?|Hu]]; [done|done|]. by rewrite Hu.
  - intros u Hn Hp Hu. rewrite login_eq.
    apply not_false in Hn, Hp. by rewrite Hn, Hp, Hu.
Qed.

Lemma login_spec_witness :
  login (fun p h => bool_decide (h = "hash-" +:+ p)) None opened "ghost" "a"
    = (Return false, opened) /\
  login (fun p h => bool_decide (h = "hash-" +:+ p)) None opened "alice" "a"
    = (Return true, opened).
Proof.
  destruct (login_spec (fun p h => bool_decide (h = "hash-" +:+ p))
              opened "ghost" "a") as (_ & Hno & _).
  destruct (login_spec (fun p h => bool_decide (h = "hash-" +:+ p))
              opened "alice" "a") as (_ & _ & Hyes).
  split.
  - apply Hno. right. right. vm_compute. reflexivity.
  - apply (Hyes (mk_user "hash-a" (0 + 100)));
      [discriminate|discriminate|vm_compute; reflexivity].
Defined.

(** ** What no call undoes *)

Lemma serve_all_ind (P : database -> Prop) :
  (forall db db', P db -> step db db' -> P db') ->
  forall l db, P db -> P (fold_left serve l db).
Proof.
  intros Hstep l. induction l as [|i l IH]; intros db Hdb; [exact Hdb|].
  simpl. apply IH. eapply Hstep; [exact Hdb|apply serve_step].
Qed.

Lemma step_keeps_account db db' name u :
  step db db' -> users db !! name = Some u ->
  exists u', users db' !! name = Some u' /\ password u' = password u.
Proof.
  intros Hstep Hname.
  destruct Hstep as [|hashed name' Hfree|now name' a Ha|now name' a w Ha Hw Hle
                    |now sender receiver a w v Ha Hne Hw Hv Hle];
    simpl.
  - eauto.
  - rewrite lookup_insert_ne by congruence. eauto.
  - rewrite lookup_alter. case_decide; [subst; rewrite Hname; simpl|]; eauto.
  - rewrite lookup_alter. case_decide; [subst; rewrite Hname; simpl|]; eauto.
  - rewrite lookup_alter. case_decide.
    + subst. rewrite lookup_alter_ne, Hname by congruence. simpl. eauto.
    + rewrite lookup_alter.
      case_decide; [subst; rewrite Hname; simpl|]; eauto.
Qed.

Lemma serve_all_keep_account (l : list invocation) db name u :
  users db !! name = Some u ->
  exists u', users (fold_left serve l db) !! name = Some u' /\
             password u' = password u.
Proof.
  intros Hu.
  apply (serve_all_ind
           (fun d => exists u', users d !! name = Some u' /\
                                password u' = password u)); [|eauto].
  intros d d' (w & Hw & Hpw) Hstep.
  destruct (step_keeps_account d d' name w Hstep Hw) as (w' & Hw' & Hpw').
  exists w'. split; [exact Hw'|congruence].
Qed.

(** X5.  No call deletes an account or changes its password: an account
    that exists still exists, with the same stored hash, after any
    sequence of signups, deposits, withdrawals and transfers. *)
Theorem accounts_persist (l : list invocation) db name u :
  users db !! name = Some u ->
  exists u', users (fold_left serve l db) !! name = Some u' /\
             password u' = password u.
Proof. apply serve_all_keep_account. Qed.

Lemma accounts_persist_witness :
  exists u',
    users (fold_left serve
             [ mk_invocation None "2025-01-01 10:03:00"
                 (Signup "alice" "other" "hash-x");
               mk_invocation None "2025-01-01 10:04:00"
                 (Withdraw "alice" 30) ] opened) !! "alice" = Some u' /\
    password u' = "hash-a".
Proof.
  apply (accounts_persist _ opened "alice" (mk_user "hash-a" (0 + 100))).
  vm_compute. reflexivity.
Defined.

(** X6.  Once [signup] has returned [True], [login] with the same
    username answers what [bcrypt.checkpw] says about the password and
    the hash that signup stored, also after any later calls. *)
Theorem login_after_signup checkpw failing hashed db name pw db' l pw' :
  signup failing hashed db name pw = (Return true, db') ->
  pw' <> "" ->
  login checkpw None (fold_left serve l db') name pw' =
    (Return (checkpw pw' hashed), fold_left serve l db').
Proof.
  intros Hsign Hpw'. rewrite signup_eq in Hsign.
  destruct (not_ name) eqn:En; [discriminate|].
  destruct (not_ pw) eqn:Ep; [discriminate|]. simpl in Hsign.
  assert (users db' !! name = Some (mk_user hashed 0)) as Hnew.
  { destruct failing as [[|k]|]; [discriminate|..];
      (destruct (users db !! name); [discriminate|]).
    - destruct (survives 2 (Some (S k))); [|discriminate].
      injection Hsign as <-. simpl. apply lookup_insert_eq.
    - injection Hsign as <-. simpl. apply lookup_insert_eq. }
  destruct (serve_all_keep_account l db' name _ Hnew) as (u' & Hu' & Hpw).
  rewrite login_eq. apply not_false in Hpw'. rewrite En, Hpw', Hu'. simpl.
  by rewrite Hpw.
Qed.

Lemma login_after_signup_witness :
  login (fun p h => bool_decide (h = "hash-" +:+ p)) None
    (fold_left serve
       [mk_invocation None "2025-01-01 10:04:00" (Deposit "carol" 5)]
       (snd (signup None "hash-pw" opened "carol" "pw"))) "carol" "pw"
  = (Return true,
     fold_left serve
       [mk_invocation None "2025-01-01 10:04:00" (Deposit "carol" 5)]
       (snd (signup None "hash-pw" opened "carol" "pw"))).
Proof.
  assert (signup None "hash-pw" opened "carol" "pw" =
          (Return true, snd (signup None "hash-pw" opened "carol" "pw")))
    as Hsign by (rewrite signup_eq; vm_compute; reflexivity).
  assert ("pw" <> "") as Hpw by discriminate.
  exact (login_after_signup (fun p h => bool_decide (h = "hash-" +:+ p))
           None "hash-pw" opened "carol" "pw" _
           [mk_invocation None "2025-01-01 10:04:00" (Deposit "carol" 5)]
           "pw" Hsign Hpw).
Defined.

Lemma step_appends db db' :
  step db db' -> exists rows, transactions db' = transactions db ++ rows.
Proof.
  intros Hstep.
  destruct Hstep as [|hashed name' Hfree|now name' a Ha|now name' a w Ha Hw Hle
                    |now sender receiver a w v Ha Hne Hw Hv Hle];
    simpl.
  - exists []. by rewrite app_nil_r.
  - exists []. by rewrite app_nil_r.
  - eauto.
  - eauto.
  - rewrite <- app_assoc. eauto.
Qed.

(** X7.  The log only grows: after any sequence of calls the earlier
    rows are still there, unchanged and in the same places, and what
    was added comes after them. *)
Theorem log_only_grows (l : list invocation) db :
  exists rows,
    transactions (fold_left serve l db) = transactions db ++ rows.
Proof.
  apply (serve_all_ind
           (fun d => exists rows, transactions d = transactions db ++ rows)).
  - intros d d' (rows & Hd) Hstep.
    destruct (step_appends d d' Hstep) as (rows' & Hd').
    exists (rows ++ rows'). by rewrite Hd', Hd, app_assoc.
  - exists []. by rewrite app_nil_r.
Qed.

(** ** What every reachable database looks like *)

Lemma refers_to_accounts_mono db db' t :
  (forall n, is_Some (users db !! n) -> is_Some (users db' !! n)) ->
  refers_to_accounts db t -> refers_to_accounts db' t.
Proof.
  intros Hmono [[?|?] [?|?]]; split; auto.
Qed.

(** The three parts of [tidy] go from [db] to a database with the same
    usernames (or one more, non-empty) and some more rows, as long as
    the new rows are fine. *)
Lemma tidy_extend db db' rows :
  tidy db ->
  (forall n, is_Some (users db !! n) -> is_Some (users db' !! n)) ->
  (forall n, is_Some (users db' !! n) -> is_Some (users db !! n) \/ n <> "") ->
  transactions db' = transactions db ++ rows ->
  Forall well_formed rows -> Forall (refers_to_accounts db') rows ->
  tidy db'.
Proof.
  intros (Hnames & Hwf & Href) Hmono Hnew Hrows Hwf' Href'.
  split; [|split].
  - intros n Hn. destruct (Hnew n Hn) as [Hold|?]; [by apply Hnames|done].
  - rewrite Hrows. by apply Forall_app.
  - rewrite Hrows. apply Forall_app. split; [|done].
    eapply Forall_impl; [exact Href|].
    intros t. by apply refers_to_accounts_mono.
Qed.

Lemma signup_cases_name failing hashed db name pw :
  snd (signup failing hashed db name pw) = db \/
  (name <> "" /\ users db !! name = None /\
   snd (signup failing hashed db name pw) = signup_committed hashed db name).
Proof.
  rewrite signup_eq. destruct (not_ name) eqn:En; [by left|].
  destruct (not_ pw); [by left|]. apply not_false in En. simpl.
  destruct failing as [[|k]|]; [by left|..];
    (destruct (users db !! name); [by left|]).
  - destruct (survives 2 (Some (S k))); [by right|by left].
  - by right.
Qed.

Lemma serve_tidy db i : tidy db -> tidy (serve db i).
Proof.
  intros Hdb. pose proof Hdb as (Hnames & _ & _).
  destruct i as [failing now [name pw hashed|name a|name a|sender receiver a]];
    unfold serve; simpl.
  - destruct (signup_cases_name failing hashed db name pw)
      as [->|(Hn & Hfree & ->)]; [exact Hdb|].
    apply (tidy_extend db _ []); simpl; try done.
    + intros n Hn'. rewrite lookup_insert. by case_decide; [eauto|].
    + intros n. rewrite lookup_insert. case_decide; [subst; by right|by left].
    + by rewrite app_nil_r.
  - destruct (deposit failing now db name a) as [r db'] eqn:E.
    destruct (true_or_not r) as [->|Hr];
      [|by apply deposit_not_true in E as ->].
    apply deposit_true in E as [Ha ->].
    eapply (tidy_extend db); simpl; try done.
    + intros n Hn. by apply lookup_alter_is_Some.
    + intros n Hn. left. by apply lookup_alter_is_Some in Hn.
    + apply Forall_singleton. split; [exact Ha|].
      left. split; [by left|done].
    + apply Forall_singleton. split; simpl; by left.
  - destruct (withdraw failing now db name a) as [r db'] eqn:E.
    destruct (true_or_not r) as [->|Hr];
      [|by apply withdraw_not_true in E as ->].
    apply withdraw_true in E as (Ha & -> & u & Hu & Hb).
    eapply (tidy_extend db); simpl; try done.
    + intros n Hn. by apply lookup_alter_is_Some.
    + intros n Hn. left. by apply lookup_alter_is_Some in Hn.
    + apply Forall_singleton. split; [exact Ha|].
      left. split; [by right|done].
    + apply Forall_singleton. split; simpl; [|by left].
      right. apply lookup_alter_is_Some. eauto.
  - destruct (transfer failing now db sender receiver a) as [r db'] eqn:E.
    destruct (true_or_not r) as [->|Hr];
      [|by apply transfer_not_true in E as ->].
    apply transfer_true in E as (Ha & Hne & -> & u & v & Hu & Hv & Hb).
    assert (sender <> "") as Hs by (apply Hnames; eauto).
    assert (receiver <> "") as Hr by (apply Hnames; eauto).
    eapply (tidy_extend db); simpl.
    + exact Hdb.
    + intros n Hn. by do 2 apply lookup_alter_is_Some.
    + intros n Hn. left. by do 2 apply lookup_alter_is_Some in Hn.
    + by rewrite <- app_assoc.
    + apply Forall_cons. split; [|apply Forall_singleton];
        (split; [exact Ha|]); right; simpl.
      * split; [by left|]. split; [done|congruence].
      * split; [by right|]. split; [done|congruence].
    + apply Forall_cons. split; [|apply Forall_singleton];
        split; simpl; right; do 2 apply lookup_alter_is_Some; eauto.
Qed.

Lemma replay_tidy l : tidy (replay l).
Proof.
  induction l as [|i l IH] using rev_ind.
  - split; [|split]; simpl; [|constructor..].
    intros n [u Hu]. by rewrite lookup_empty in Hu.
  - rewrite replay_snoc. by apply serve_tidy.
Qed.

Lemma log_rows_shape (l : list invocation) t :
  t ∈ transactions (replay l) ->
  ((type t = "Deposit" \/ type t = "Withdraw") /\ other_party t = "") \/
  ((type t = "transfer_out" \/ type t = "transfer_in") /\
   other_party t <> "" /\ other_party t <> username t).
Proof.
  destruct (replay_tidy l) as (_ & Hwf & _).
  rewrite Forall_forall in Hwf. intros Ht. by destruct (Hwf t Ht).
Qed.

(** X8.  In every state a sequence of calls can reach, each row of the
    log is either a "Deposit" or "Withdraw" row with an empty
    [other_party], or a "transfer_out" or "transfer_in" row whose
    [other_party] is not empty and differs from its [username]. *)
Theorem log_rows_typed (l : list invocation) t :
  t ∈ transactions (replay l) ->
  ((type t = "Deposit" \/ type t = "Withdraw") /\ other_party t = "") \/
  ((type t = "transfer_out" \/ type t = "transfer_in") /\
   other_party t <> "" /\ other_party t <> username t).
Proof.
  destruct (replay_tidy l) as (_ & Hwf & _).
  rewrite Forall_forall in Hwf. intros Ht.
  destruct (Hwf t Ht) as [_ Hshape]. exact Hshape.
Qed.

Lemma log_rows_typed_witness :
  ("Deposit" = "Deposit" \/ "Deposit" = "Withdraw") /\ "" = "" \/
  ("Deposit" = "transfer_out" \/ "Deposit" = "transfer_in") /\
  "" <> "" /\ "" <> "alice".
Proof.
  refine (log_rows_typed
            [ mk_invocation None "2025-01-01 10:00:00"
                (Signup "alice" "pw-a" "hash-a");
              mk_invocation None "2025-01-01 10:01:00"
                (Signup "bob" "pw-b" "hash-b");
              mk_invocation None "2025-01-01 10:02:00"
                (Deposit "alice" 100) ]
            (mk_txn 1 "alice" "Deposit" 100 "2025-01-01 10:02:00" "") _).
  vm_compute. left.
Defined.

(** X9.  In every reachable state the accounts a row names exist: the
    [username] of every row that is not a "Deposit" row, and the
    [other_party] of every row that has one. *)
Theorem log_rows_name_accounts (l : list invocation) t :
  t ∈ transactions (replay l) ->
  (type t <> "Deposit" -> is_Some (users (replay l) !! username t)) /\
  (other_party t <> "" -> is_Some (users (replay l) !! other_party t)).
Proof.
  destruct (replay_tidy l) as (_ & _ & Href).
  rewrite Forall_forall in Href. intros Ht.
  destruct (Href t Ht) as [[?|?] [?|?]]; split; intros; done.
Qed.

(** X10.  No reachable state has an account with the empty username. *)
Theorem usernames_not_empty (l : list invocation) name u :
  users (replay l) !! name = Some u -> name <> "".
Proof.
  intros Hu. destruct (replay_tidy l) as (Hnames & _). apply Hnames. eauto.
Qed.

Lemma usernames_not_empty_witness : "alice" <> "".
Proof.
  apply (usernames_not_empty
           [ mk_invocation None "2025-01-01 10:00:00"
               (Signup "alice" "pw-a" "hash-a") ]
           "alice" (mk_user "hash-a" 0)).
  vm_compute. reflexivity.
Defined.

(** ** get_all_users *)

Lemma string_compare_lt_trans (s1 s2 s3 : string) :
  String.compare s1 s2 = Lt -> String.compare s2 s3 = Lt ->
  String.compare s1 s3 = Lt.
Proof.
  revert s2 s3. induction s1 as [|a s1 IH]; intros [|b s2] [|c s3]; simpl;
    try done.
  destruct (Ascii.compare a b) eqn:Eab; try done.
  - apply Ascii.compare_eq_iff in Eab as ->.
    destruct (Ascii.compare b c); try done. apply IH.
  - intros _. destruct (Ascii.compare b c) eqn:Ebc; try done.
    + apply Ascii.compare_eq_iff in Ebc as <-. by rewrite Eab.
    + intros _. assert (Ascii.compare a c = Lt) as ->; [|done].
      unfold Ascii.compare in *. rewrite N.compare_lt_iff in *. lia.
Qed.

Lemma string_leb_cases (s1 s2 : string) :
  String.leb s1 s2 = true <-> s1 = s2 \/ String.compare s1 s2 = Lt.
Proof.
  unfold String.leb. split.
  - destruct (String.compare s1 s2) eqn:E; try done.
    + left. by apply String.compare_eq_iff.
    + by right.
  - intros [-> | ->]; [|done].
    destruct (String.compare s2 s2) eqn:E; try done.
    pose proof (String.compare_antisym s2 s2) as H. rewrite E in H.
    discriminate.
Qed.

#[global] Instance username_le_trans : Transitive username_le.
Proof.
  intros [p ?] [q ?] [r ?]. unfold username_le. simpl. intros H1 H2.
  apply string_leb_cases in H1, H2. apply string_leb_cases.
  destruct H1 as [-> | H1], H2 as [-> | H2];
    eauto using string_compare_lt_trans.
Qed.

#[global] Instance username_le_total : Total username_le.
Proof. intros p q. apply String.leb_total. Qed.

Lemma get_all_users_eq failing db :
  get_all_users failing db =
    match failing with
    | Some O => (Raise OperationalError, db)
    | _ => (Return ((fun p => (p.1, balance p.2))
                      <$> ORDER_BY_username (map_to_list (users db))),
            db)
    end.
Proof.
  unfold get_all_users, connect, SELECT_all_users, bind, call, read.
  destruct failing as [[|?]|]; reflexivity.
Qed.

(** Sorted by [<=] and without a repeated username is sorted by [<]. *)
Lemma sorted_strictly (l : list (string * user)) :
  StronglySorted username_le l -> NoDup l.*1 ->
  StronglySorted username_lt ((fun p => (p.1, balance p.2)) <$> l).
Proof.
  induction 1 as [|p l Hs IH Hall]; [constructor|].
  rewrite fmap_cons. intros [Hnotin Hnd]%NoDup_cons.
  constructor; [by apply IH|].
  rewrite Forall_forall in Hall. apply Forall_forall.
  intros q' (q & -> & Hq)%list_elem_of_fmap. specialize (Hall q Hq).
  unfold username_le in Hall. unfold username_lt, String.ltb. simpl.
  apply string_leb_cases in Hall as [Heq|Hlt]; [|by rewrite Hlt].
  destruct Hnotin. rewrite Heq. apply list_elem_of_fmap. eauto.
Qed.

(** X11.  [get_all_users] never changes the database, and when no call
    raises it returns one [(username, balance)] pair for every account
    and nothing else, in strictly ascending byte order of the
    usernames. *)
Theorem get_all_users_spec db :
  (forall failing, snd (get_all_users failing db) = db) /\
  exists rows,
    get_all_users None db = (Return rows, db) /\
    StronglySorted username_lt rows /\
    length rows = size (users db) /\
    forall name b,
      (name, b) ∈ rows <->
      exists u, users db !! name = Some u /\ balance u = b.
Proof.
  split.
  { intros failing. rewrite get_all_users_eq. by destruct failing as [[|?]|]. }
  exists ((fun p => (p.1, balance p.2))
            <$> ORDER_BY_username (map_to_list (users db))).
  split; [by rewrite get_all_users_eq|].
  unfold ORDER_BY_username.
  pose proof (merge_sort_Permutation username_le (map_to_list (users db)))
    as Hperm.
  split; [|split].
  - apply sorted_strictly.
    + apply StronglySorted_merge_sort; apply _.
    + rewrite Hperm. apply NoDup_fst_map_to_list.
  - rewrite length_fmap, Hperm. apply length_map_to_list.
  - intros name b. rewrite list_elem_of_fmap. split.
    + intros ([n u] & [= -> ->] & Hin). rewrite Hperm in Hin.
      apply elem_of_map_to_list in Hin. eauto.
    + intros (u & Hu & <-). exists (name, u). split; [done|].
      rewrite Hperm. by apply elem_of_map_to_list.
Qed.

(** The admin panel after scenario 1. *)
Example all_users_of_opened :
  get_all_users None opened = (Return [("alice", 0 + 100); ("bob", 0)], opened).
Proof. rewrite get_all_users_eq. vm_compute. reflexivity. Qed.

(** ** The history after a transfer *)

Lemma get_transactions_numbered db name :
  numbered db ->
  get_transactions None db name =
    (Return (columns <$> WHERE_username name (transactions db)), db).
Proof.
  intros [Hs _]. rewrite get_transactions_eq.
  by rewrite ORDER_BY_id_sorted by by apply WHERE_username_sorted.
Qed.

(** X17.  In a reachable state, a transfer that returns [True] adds
    [("transfer_out", a, now, receiver)] at the end of the sender's
    history and [("transfer_in", a, now, sender)] at the end of the
    receiver's, and leaves every other history as it was. *)
Theorem history_after_transfer (l : list invocation) failing now
    sender receiver a db' :
  transfer failing now (replay l) sender receiver a = (Return true, db') ->
  exists hs hr,
    get_transactions None (replay l) sender = (Return hs, replay l) /\
    get_transactions None (replay l) receiver = (Return hr, replay l) /\
    get_transactions None db' sender
      = (Return (hs ++ [("transfer_out", a, now, receiver)]), db') /\
    get_transactions None db' receiver
      = (Return (hr ++ [("transfer_in", a, now, sender)]), db') /\
    forall w, w <> sender -> w <> receiver ->
      fst (get_transactions None db' w)
        = fst (get_transactions None (replay l) w).
Proof.
  intros E.
  assert (numbered db') as Hnum'.
  { pose proof (replay_numbered
                  (l ++ [mk_invocation failing now
                           (Transfer sender receiver a)])) as H.
    rewrite replay_snoc in H. unfold serve in H. simpl in H.
    by rewrite E in H. }
  pose proof (replay_numbered l) as Hnum.
  apply transfer_true in E as (_ & Hne & Hdb' & _).
  assert (forall w,
            WHERE_username w (transactions db') =
              (WHERE_username w (transactions (replay l))
                 ++ (if decide (sender = w)
                     then [transfer_out_row now (replay l) sender receiver a]
                     else []))
                ++ (if decide (receiver = w)
                    then [transfer_in_row now (replay l) sender receiver a]
                    else [])) as Hrows.
  { intros w. rewrite Hdb'. simpl. rewrite !WHERE_username_snoc. simpl.
    repeat case_decide; by rewrite ?app_nil_r. }
  exists (columns <$> WHERE_username sender (transactions (replay l))),
         (columns <$> WHERE_username receiver (transactions (replay l))).
  rewrite !get_transactions_numbered by assumption.
  repeat split.
  - rewrite Hrows, decide_True, decide_False by done.
    by rewrite app_nil_r, fmap_app.
  - rewrite Hrows, decide_False, decide_True by done.
    by rewrite app_nil_r, fmap_app.
  - intros w Hs Hr. simpl.
    by rewrite Hrows, !decide_False, !app_nil_r by done.
Qed.

Lemma history_after_transfer_witness :
  exists hs hr,
    get_transactions None opened "alice" = (Return hs, opened) /\
    get_transactions None opened "bob" = (Return hr, opened) /\
    fst (get_transactions None
           (snd (transfer None "2025-01-01 10:03:00" opened "alice" "bob" 40))
           "bob")
      = Return (hr ++ [("transfer_in", 40, "2025-01-01 10:03:00", "alice")]).
Proof.
  destruct (history_after_transfer
              [ mk_invocation None "2025-01-01 10:00:00"
                  (Signup "alice" "pw-a" "hash-a");
                mk_invocation None "2025-01-01 10:01:00"
                  (Signup "bob" "pw-b" "hash-b");
                mk_invocation None "2025-01-01 10:02:00"
                  (Deposit "alice" 100) ]
              None "2025-01-01 10:03:00" "alice" "bob" 40
              (snd (transfer None "2025-01-01 10:03:00" opened
                      "alice" "bob" 40)))
    as (hs & hr & H1 & H2 & _ & H4 & _).
  - rewrite transfer_eq. vm_compute. reflexivity.
  - exists hs, hr. split; [exact H1|]. split; [exact H2|].
    fold opened in H4. by rewrite H4.
Defined.

Lemma log_rows_name_accounts_witness :
  is_Some (users
             (replay
                [ mk_invocation None "2025-01-01 10:00:00"
                    (Signup "alice" "pw-a" "hash-a");
                  mk_invocation None "2025-01-01 10:01:00"
                    (Deposit "alice" 10);
                  mk_invocation None "2025-01-01 10:02:00"
                    (Withdraw "alice" 4) ]) !! "alice").
Proof.
  refine (proj1 (log_rows_name_accounts
                   [ mk_invocation None "2025-01-01 10:00:00"
                       (Signup "alice" "pw-a" "hash-a");
                     mk_invocation None "2025-01-01 10:01:00"
                       (Deposit "alice" 10);
                     mk_invocation None "2025-01-01 10:02:00"
                       (Withdraw "alice" 4) ]
                   (mk_txn 2 "alice" "Withdraw" 4 "2025-01-01 10:02:00" "")
                   _) _).
  - vm_compute. right. left.
  - discriminate.
Defined.

(** ** The history page *)

(** X18.  Every row of a reachable log is shown by [giri.py] in one of
    four ways: a Deposit with a plus sign and its timestamp, a Withdraw
    with a minus sign and its timestamp, a transfer_out with a minus
    sign and "To: <receiver> | <timestamp>", a transfer_in with a plus
    sign and "From: <sender> | <timestamp>". *)
Theorem history_page_rows (l : list invocation) t :
  t ∈ transactions (replay l) ->
  (type t = "Deposit" /\ credits (type t) = true /\
   details (type t) (timestamp t) (other_party t) = timestamp t) \/
  (type t = "Withdraw" /\ credits (type t) = false /\
   details (type t) (timestamp t) (other_party t) = timestamp t) \/
  (type t = "transfer_out" /\ credits (type t) = false /\
   details (type t) (timestamp t) (other_party t)
     = "To: " +:+ other_party t +:+ " | " +:+ timestamp t) \/
  (type t = "transfer_in" /\ credits (type t) = true /\
   details (type t) (timestamp t) (other_party t)
     = "From: " +:+ other_party t +:+ " | " +:+ timestamp t).
Proof.
  intros Ht.
  destruct (log_rows_shape l t Ht)
    as [[[Hty|Hty] Hother]|[[Hty|Hty] [Hother _]]];
    rewrite ?Hty; unfold details.
  - left. rewrite Hother. by repeat split.
  - right. left. rewrite Hother. by repeat split.
  - right. right. left. apply not_false in Hother. rewrite Hother.
    by repeat split.
  - right. right. right. apply not_false in Hother. rewrite Hother.
    by repeat split.
Qed.

Lemma history_page_rows_witness :
  details "Deposit" "2025-01-01 10:02:00" "" = "2025-01-01 10:02:00".
Proof.
  destruct (history_page_rows
              [ mk_invocation None "2025-01-01 10:00:00"
                  (Signup "alice" "pw-a" "hash-a");
                mk_invocation None "2025-01-01 10:01:00"
                  (Signup "bob" "pw-b" "hash-b");
                mk_invocation None "2025-01-01 10:02:00"
                  (Deposit "alice" 100) ]
              (mk_txn 1 "alice" "Deposit" 100 "2025-01-01 10:02:00" ""))
    as [(_ & _ & H)|[(H & _)|[(H & _)|(H & _)]]];
    [vm_compute; left|exact H|discriminate..].
Defined.

(** ** One run of the script *)

Lemma signup_not_true failing hashed db name pw r db' :
  signup failing hashed db name pw = (r, db') -> r <> Return true -> db' = db.
Proof.
  rewrite signup_eq. intros H Hr.
  destruct (not_ name || not_ pw); [congruence|].
  destruct failing as [[|k]|]; [congruence|..];
    (destruct (users db !! name); [congruence|]).
  - destruct (survives 2 (Some (S k))); congruence.
  - simpl in H. congruence.
Qed.

Lemma login_result checkpw failing db name pw r db' :
  login checkpw failing db name pw = (r, db') ->
  db' = db /\ (r = Return true -> is_Some (users db !! name)).
Proof.
  rewrite login_eq. intros H.
  destruct (not_ name || not_ pw); [by inversion H|].
  destruct failing as [[|k]|]; [by inversion H|..];
    (destruct (users db !! name) as [u|]; [|by inversion H]);
    inversion H; eauto.
Qed.

Lemma read_only_calls failing db name :
  snd (get_balance failing db name) = db /\
  snd (get_transactions failing db name) = db /\
  snd (get_all_users failing db) = db.
Proof.
  rewrite get_balance_eq, get_transactions_eq, get_all_users_eq.
  by destruct failing as [[|?]|].
Qed.

Lemma kept st db alerts raised :
  run_effect st db (mk_page st db alerts raised).
Proof. left. simpl. eauto. Qed.

Lemma dashboard_effect strip w st db :
  logged_in st = true -> run_effect st db (dashboard strip w st db).
Proof.
  intros Hin. unfold dashboard.
  destruct (get_balance (failing_first w) db (session_username st))
    as [[b|e] db1] eqn:Eb;
    pose proof (proj1 (read_only_calls (failing_first w) db
                         (session_username st))) as Hdb1;
    rewrite Eb in Hdb1; simpl in Hdb1; subst db1; [|apply kept].
  case_bool_decide as Hdep.
  { destruct (submitted w); [|apply kept].
    destruct (deposit (failing_second w) (clock w) db (session_username st)
                (amt w)) as [[[|]|e] db2] eqn:E.
    - right. simpl. repeat split; [set_solver|].
      exists (mk_invocation (failing_second w) (clock w)
                (Deposit (session_username st) (amt w))).
      unfold serve, acts_for. simpl. by rewrite E.
    - apply deposit_not_true in E as ->; [apply kept|done].
    - apply deposit_not_true in E as ->; [apply kept|done]. }
  case_bool_decide as Hwd.
  { destruct (submitted w); [|apply kept].
    destruct (withdraw (failing_second w) (clock w) db (session_username st)
                (amt w)) as [[[|]|e] db2] eqn:E.
    - right. simpl. repeat split; [set_solver|].
      exists (mk_invocation (failing_second w) (clock w)
                (Withdraw (session_username st) (amt w))).
      unfold serve, acts_for. simpl. by rewrite E.
    - apply withdraw_not_true in E as ->; [apply kept|done].
    - apply withdraw_not_true in E as ->; [apply kept|done]. }
  case_bool_decide as Htr.
  { destruct (submitted w); [|apply kept].
    case_bool_decide as Hself; [apply kept|].
    destruct (transfer (failing_second w) (clock w) db (session_username st)
                (strip (receiver w)) (amt w)) as [[[|]|e] db2] eqn:E.
    - right. simpl. repeat split; [set_solver|].
      exists (mk_invocation (failing_second w) (clock w)
                (Transfer (session_username st) (strip (receiver w))
                   (amt w))).
      unfold serve, acts_for. simpl. by rewrite E.
    - apply transfer_not_true in E as ->; [apply kept|done].
    - apply transfer_not_true in E as ->; [apply kept|done]. }
  case_bool_decide as Hhist; [|apply kept].
  destruct (get_transactions (failing_second w) db (session_username st))
    as [[[|? ?]|e] db2] eqn:E;
    pose proof (proj1 (proj2 (read_only_calls (failing_second w) db
                                (session_username st)))) as Hdb2;
    rewrite E in Hdb2; simpl in Hdb2; subst db2; apply kept.
Qed.

Lemma giri_effect strip checkpw w st db :
  run_effect st db (giri strip checkpw w st db).
Proof.
  unfold giri.
  set (choice := if logged_in st then _ else _). clearbody choice.
  case_bool_decide; [left; simpl; eauto|].
  case_bool_decide.
  { destruct (submitted w); [|apply kept].
    destruct (not_ (uname w) || not_ (pwd w)); [apply kept|].
    destruct (signup (failing_first w) (hashed_pwd w) db (strip (uname w))
                (pwd w)) as [[[|]|e] db1] eqn:E.
    - right. simpl. repeat split; [set_solver|].
      exists (mk_invocation (failing_first w) (clock w)
                (Signup (strip (uname w)) (pwd w) (hashed_pwd w))).
      unfold serve, acts_for. simpl. by rewrite E.
    - apply signup_not_true in E as ->; [apply kept|done].
    - apply signup_not_true in E as ->; [apply kept|done]. }
  case_bool_decide.
  { destruct (submitted w); [|apply kept].
    destruct (login checkpw (failing_first w) db (strip (uname w)) (pwd w))
      as [[[|]|e] db1] eqn:E;
      apply login_result in E as [-> Hacc]; try apply kept.
    left. simpl. split; [done|]. right. right. eauto. }
  destruct (logged_in st) eqn:Hin.
  - rewrite !andb_true_r, !andb_false_r.
    case_bool_decide; [by apply dashboard_effect|].
    case_bool_decide; [|apply kept].
    destruct (get_all_users (failing_first w) db) as [[[|? ?]|e] db1] eqn:E;
      pose proof (proj2 (proj2 (read_only_calls (failing_first w) db "")))
        as Hdb1;
      rewrite E in Hdb1; simpl in Hdb1; subst db1; apply kept.
  - rewrite !andb_false_r, andb_true_r.
    destruct (_ || _); apply kept.
Qed.

Lemma login_true checkpw failing db name pw db' :
  login checkpw failing db name pw = (Return true, db') ->
  exists u, users db !! name = Some u /\ checkpw pw (password u) = true.
Proof.
  rewrite login_eq.
  destruct (not_ name || not_ pw); [discriminate|].
  destruct failing as [[|k]|]; [discriminate|..];
    (destruct (users db !! name) as [u|]; [|discriminate]);
    intros [= Hc _]; eauto.
Qed.

Lemma dashboard_session strip w st db :
  session_after (dashboard strip w st db) = st.
Proof. unfold dashboard. repeat case_match; reflexivity. Qed.

(** X19.  A run of the script leaves a session logged in only if it was
    logged in before and is unchanged, or if this run's login form named
    an existing account and [bcrypt.checkpw] accepted the password for
    the stored hash; the session is then that account's. *)
Theorem login_needs_password strip checkpw w st db :
  logged_in (session_after (giri strip checkpw w st db)) = true ->
  (logged_in st = true /\ session_after (giri strip checkpw w st db) = st) \/
  (session_after (giri strip checkpw w st db)
     = mk_session true (strip (uname w)) /\
   exists u, users db !! strip (uname w) = Some u /\
             checkpw (pwd w) (password u) = true).
Proof.
  unfold giri.
  set (choice := if logged_in st then _ else _). clearbody choice.
  case_bool_decide; [discriminate|].
  case_bool_decide.
  { repeat case_match; simpl; intros Hin; left; by split. }
  case_bool_decide.
  { destruct (submitted w); [|simpl; intros Hin; left; by split].
    destruct (login checkpw (failing_first w) db (strip (uname w)) (pwd w))
      as [[[|]|e] db1] eqn:E; simpl; intros Hin;
      [|left; by split..].
    right. split; [done|]. by apply login_true in E. }
  repeat case_match; rewrite ?dashboard_session; simpl; intros Hin;
    left; by split.
Qed.

Lemma login_needs_password_witness :
  exists u, users opened !! "alice" = Some u /\
            bool_decide (password u = "hash-" +:+ "a") = true.
Proof.
  destruct (login_needs_password (fun s => s)
              (fun p h => bool_decide (h = "hash-" +:+ p))
              (mk_widgets 1 "alice" "a" true 0 0 "" "" "" None None)
              fresh_session opened) as [[Hin _]|[_ Hu]].
  - vm_compute. reflexivity.
  - discriminate.
  - exact Hu.
Defined.

(** X20.  A run that changes the database ends without an exception,
    draws a success box and keeps the session as it was. *)
Theorem changes_are_reported strip checkpw w st db :
  db_after (giri strip checkpw w st db) <> db ->
  raised (giri strip checkpw w st db) = None /\
  st_success ∈ alerts (giri strip checkpw w st db) /\
  session_after (giri strip checkpw w st db) = st.
Proof.
  intros Hch.
  destruct (giri_effect strip checkpw w st db)
    as [[Hsame _]|(Hst & Hr & Hs & _)]; [done|by repeat split].
Qed.

Lemma changes_are_reported_witness :
  st_success ∈
    alerts (giri (fun s => s) (fun p h => bool_decide (h = "hash-" +:+ p))
              (mk_widgets 0 "" "" true 0 25 "" "" "2025-01-01 10:03:00"
                 None None)
              (mk_session true "alice") opened).
Proof.
  refine (proj1 (proj2 (changes_are_reported (fun s => s)
                          (fun p h => bool_decide (h = "hash-" +:+ p))
                          (mk_widgets 0 "" "" true 0 25 "" ""
                             "2025-01-01 10:03:00" None None)
                          (mk_session true "alice") opened _))).
  vm_compute. discriminate.
Defined.

(** A committed request made for one user takes nothing from another. *)
Lemma serve_spares st db i name u :
  acts_for st i -> name <> session_username st ->
  users db !! name = Some u ->
  exists u', users (serve db i) !! name = Some u' /\
             balance u <= balance u' /\ password u' = password u.
Proof.
  intros Hact Hne Hu.
  destruct i as [failing now [n pw hashed|n a|n a|sender rcv a]];
    unfold acts_for in Hact; unfold serve; simpl in *.
  - destruct (signup_cases failing hashed db n pw) as [->|[Hn ->]].
    + exists u. repeat split; [done|lra].
    + exists u. simpl. rewrite lookup_insert_ne by congruence.
      repeat split; [done|lra].
  - destruct Hact as [_ ->].
    destruct (deposit failing now db (session_username st) a)
      as [r db'] eqn:E.
    destruct (true_or_not r) as [->|Hr].
    + apply deposit_true in E as [_ ->]. exists u. simpl.
      rewrite lookup_alter_ne by congruence. repeat split; [done|lra].
    + apply deposit_not_true in E as ->; [|done].
      exists u. repeat split; [done|lra].
  - destruct Hact as [_ ->].
    destruct (withdraw failing now db (session_username st) a)
      as [r db'] eqn:E.
    destruct (true_or_not r) as [->|Hr].
    + apply withdraw_true in E as (_ & -> & _). exists u. simpl.
      rewrite lookup_alter_ne by congruence. repeat split; [done|lra].
    + apply withdraw_not_true in E as ->; [|done].
      exists u. repeat split; [done|lra].
  - destruct Hact as [_ ->].
    destruct (transfer failing now db (session_username st) rcv a)
      as [r db'] eqn:E.
    destruct (true_or_not r) as [->|Hr].
    + apply transfer_true in E as (Ha & _ & -> & _). simpl.
      rewrite lookup_alter. case_decide.
      * subst. rewrite lookup_alter_ne, Hu by congruence. simpl.
        eexists. repeat split; simpl; lra.
      * rewrite lookup_alter_ne by congruence.
        exists u. repeat split; [done|lra].
    + apply transfer_not_true in E as ->; [|done].
      exists u. repeat split; [done|lra].
Qed.

(** X21.  Nobody's money goes down in somebody else's session: after a
    run of the script, every account other than the one the session
    belongs to still exists, with the same password and a balance that
    is at least what it was. *)
Theorem run_spares_other_accounts strip checkpw w st db name u :
  users db !! name = Some u -> name <> session_username st ->
  exists u',
    users (db_after (giri strip checkpw w st db)) !! name = Some u' /\
    balance u <= balance u' /\ password u' = password u.
Proof.
  intros Hu Hne.
  destruct (giri_effect strip checkpw w st db)
    as [[-> _]|(_ & _ & _ & i & -> & Hact)].
  - exists u. repeat split; [done|lra].
  - by apply (serve_spares st).
Qed.

Lemma run_spares_other_accounts_witness :
  exists u',
    users (db_after
             (giri (fun s => s) (fun p h => bool_decide (h = "hash-" +:+ p))
                (mk_widgets 0 "" "" true 2 40 "bob" ""
                   "2025-01-01 10:03:00" None None)
                (mk_session true "alice") opened)) !! "bob" = Some u' /\
    0 <= balance u'.
Proof.
  destruct (run_spares_other_accounts (fun s => s)
              (fun p h => bool_decide (h = "hash-" +:+ p))
              (mk_widgets 0 "" "" true 2 40 "bob" ""
                 "2025-01-01 10:03:00" None None)
              (mk_session true "alice") opened "bob" (mk_user "hash-b" 0))
    as (u' & Hu' & Hb & _); [vm_compute; reflexivity|discriminate|].
  exists u'. split; [exact Hu'|exact Hb].
Defined.

(** X22.  A run in a session that is not logged in moves no money: the
    log and every existing account stay as they were (it can at most
    add an account). *)
Theorem logged_out_run_moves_nothing strip checkpw w st db :
  logged_in st = false ->
  transactions (db_after (giri strip checkpw w st db)) = transactions db /\
  forall name u,
    users db !! name = Some u ->
    users (db_after (giri strip checkpw w st db)) !! name = Some u.
Proof.
  intros Hout.
  destruct (giri_effect strip checkpw w st db)
    as [[-> _]|(_ & _ & _ & i & -> & Hact)]; [done|].
  destruct i as [failing now [n pw hashed|n a|n a|sender rcv a]];
    unfold acts_for in Hact; simpl in Hact;
    try (destruct Hact; congruence).
  unfold serve. simpl.
  destruct (signup_cases failing hashed db n pw) as [->|[Hn ->]]; [done|].
  split; [done|]. intros name u Hu. simpl.
  rewrite lookup_insert_ne by congruence. exact Hu.
Qed.

Lemma logged_out_run_moves_nothing_witness :
  transactions
    (db_after
       (giri (fun s => s) (fun p h => bool_decide (h = "hash-" +:+ p))
          (mk_widgets 0 "carol" "c" true 0 0 "" "hash-c" "" None None)
          fresh_session opened))
  = transactions opened.
Proof.
  refine (proj1 (logged_out_run_moves_nothing (fun s => s)
                   (fun p h => bool_decide (h = "hash-" +:+ p))
                   (mk_widgets 0 "carol" "c" true 0 0 "" "hash-c" "" None None)
                   fresh_session opened _)).
  reflexivity.
Defined.

(** ** Any number of sessions, one run after the other *)

Lemma session_of_logged_in s v :
  sessions_have_accounts s -> logged_in (session_of s v) = true ->
  is_Some (users (bank s) !! session_username (session_of s v)).
Proof.
  unfold session_of. intros Hs.
  destruct (sessions s !! v) as [st|] eqn:Hv; simpl; [|discriminate].
  by apply (Hs v).
Qed.

Lemma serve_keeps_accounts db i name :
  is_Some (users db !! name) -> is_Some (users (serve db i) !! name).
Proof.
  intros [u Hu].
  destruct (step_keeps_account db (serve db i) name u (serve_step db i) Hu)
    as (u' & Hu' & _).
  eauto.
Qed.

Lemma handle_sessions strip checkpw s v :
  sessions_have_accounts s ->
  sessions_have_accounts (handle strip checkpw s v).
Proof.
  intros Hs v' st'. unfold handle. simpl.
  pose proof (session_of_logged_in s (visitor v) Hs) as Hmine.
  destruct (giri_effect strip checkpw (input v) (session_of s (visitor v))
              (bank s))
    as [[-> Hsess]|(Hsess & _ & _ & i & -> & _)];
    rewrite lookup_insert; case_decide as Hv.
  - intros [= <-] Hin.
    destruct Hsess as [Hk|[Hk|(name & Hk & Hacc)]]; rewrite Hk in Hin |- *.
    + by apply Hmine.
    + discriminate.
    + exact Hacc.
  - apply (Hs v').
  - intros [= <-] Hin. rewrite Hsess in Hin |- *.
    apply serve_keeps_accounts. by apply Hmine.
  - intros Hv' Hin. apply serve_keeps_accounts. by apply (Hs v').
Qed.

Lemma browse_snoc strip checkpw vs v :
  browse strip checkpw (vs ++ [v])
    = handle strip checkpw (browse strip checkpw vs) v.
Proof. unfold browse. by rewrite fold_left_app. Qed.

Lemma browse_sessions strip checkpw vs :
  sessions_have_accounts (browse strip checkpw vs).
Proof.
  induction vs as [|v vs IH] using rev_ind.
  - intros v st. unfold browse. simpl. by rewrite lookup_empty.
  - rewrite browse_snoc. by apply handle_sessions.
Qed.

(** X23.  Whatever the visitors do, one run after the other from the
    fresh tables, a session that is logged in is logged in as a
    username that has an account. *)
Theorem logged_in_sessions_have_accounts strip checkpw vs v st :
  sessions (browse strip checkpw vs) !! v = Some st ->
  logged_in st = true ->
  is_Some (users (bank (browse strip checkpw vs)) !! session_username st).
Proof. apply browse_sessions. Qed.

Lemma logged_in_sessions_have_accounts_witness :
  is_Some
    (users
       (bank (browse (fun s => s)
                (fun p h => bool_decide (h = "hash-" +:+ p))
                [ mk_visit 7 (mk_widgets 0 "dora" "d" true 0 0 "" "hash-d" ""
                                None None);
                  mk_visit 7 (mk_widgets 1 "dora" "d" true 0 0 "" "" ""
                                None None) ]))
       !! "dora").
Proof.
  apply (logged_in_sessions_have_accounts (fun s => s)
           (fun p h => bool_decide (h = "hash-" +:+ p))
           [ mk_visit 7 (mk_widgets 0 "dora" "d" true 0 0 "" "hash-d" ""
                           None None);
             mk_visit 7 (mk_widgets 1 "dora" "d" true 0 0 "" "" ""
                           None None) ]
           7 (mk_session true "dora")).
  - vm_compute. reflexivity.
  - reflexivity.
Defined.

Lemma handle_deposits_find_account s (v : visit) i :
  sessions_have_accounts s ->
  acts_for (session_of s (visitor v)) i ->
  forall name a, inv_request i = Deposit name a ->
                 is_Some (users (bank s) !! name).
Proof.
  intros Hs Hact name a Hreq. unfold acts_for in Hact. rewrite Hreq in Hact.
  destruct Hact as [Hin ->]. by apply session_of_logged_in.
Qed.

(** * Calls that run at the same time *)

(** Run one right after the other, the two halves are [withdraw]. *)
Lemma halves_are_withdraw failing now db name a :
  withdraw failing now db name a =
    match withdraw_test failing db name a with
    | Return true => withdraw_write (after_SELECT failing) now db name a
    | Return false => (Return false, db)
    | Raise e => (Raise e, db)
    end.
Proof.
  unfold withdraw, withdraw_test, withdraw_write.
  destruct (Qle_bool a 0); [reflexivity|].
  unfold connect, SELECT_balance, bind, call, read, ret; simpl.
  destruct failing as [[|k]|]; simpl; try reflexivity;
    (destruct (users db !! name) as [u|]; simpl; [|reflexivity]);
    destruct (Qlt_bool (balance u) a); reflexivity.
Qed.

Lemma racing_on_opened :
  racing_withdrawals opened "alice" 60 60
    "2025-01-01 10:03:00" "2025-01-01 10:03:00"
  = (Return true, Return true,
     {| users :=
          <["alice" := mk_user "hash-a" (0 + 100 - 60 - 60)]> (users opened);
        transactions :=
          transactions opened ++
            [ mk_txn 2 "alice" "Withdraw" 60 "2025-01-01 10:03:00" "";
              mk_txn 3 "alice" "Withdraw" 60 "2025-01-01 10:03:00" "" ];
        sqlite_sequence := 3 |}).
Proof. vm_compute. reflexivity. Qed.

(** C9.  Two withdrawals of 60 from alice's 100 at the same time, each
    making its test before the other writes: both calls pass the test
    on the committed 100, both return [True], both Withdraw rows are
    committed and the balance ends at 100 - 60 - 60 = -20, although
    the two amounts together exceed the balance. *)
Theorem racing_withdrawals_both_succeed :
  users opened !! "alice" = Some (mk_user "hash-a" (0 + 100)) /\
  0 + 100 < 60 + 60 /\
  withdraw_test None opened "alice" 60 = Return true /\
  exists db',
    racing_withdrawals opened "alice" 60 60
      "2025-01-01 10:03:00" "2025-01-01 10:03:00"
    = (Return true, Return true, db') /\
    users db' !! "alice" = Some (mk_user "hash-a" (0 + 100 - 60 - 60)) /\
    0 + 100 - 60 - 60 == -20 /\
    transactions db' =
      transactions opened ++
        [ mk_txn 2 "alice" "Withdraw" 60 "2025-01-01 10:03:00" "";
          mk_txn 3 "alice" "Withdraw" 60 "2025-01-01 10:03:00" "" ].
Proof.
  split; [vm_compute; reflexivity|]. split; [reflexivity|].
  split; [vm_compute; reflexivity|].
  eexists. split; [apply racing_on_opened|]. simpl.
  split; [apply lookup_insert_eq|]. split; reflexivity.
Qed.

(** C4.  The same two calls drive a balance below zero: starting from
    alice's signup and her deposit of 100, the committed state after
    the two withdrawals of 60 has her balance at -20 < 0. *)
Theorem racing_withdrawals_overdraw :
  exists db' u,
    racing_withdrawals opened "alice" 60 60
      "2025-01-01 10:03:00" "2025-01-01 10:03:00"
    = (Return true, Return true, db') /\
    users db' !! "alice" = Some u /\
    balance u < 0.
Proof.
  eexists. exists (mk_user "hash-a" (0 + 100 - 60 - 60)).
  split; [apply racing_on_opened|]. simpl.
  split; [apply lookup_insert_eq|reflexivity].
Qed.

(** * Balances as doubles *)

(** ** Comparisons of doubles *)








(** ** The functions over doubles, call by call *)

Lemma real_deposit_eq failing now db name a :
  real.deposit failing now db name a =
    if (a <=? 0)%float then (real.Return false, db)
    else match failing with
         | Some O => (real.Raise real.OperationalError, db)
         | _ =>
           if survives 4 failing
           then (real.Return true,
                 {| real.users :=
                      alter (fun u => real.mk_user (real.password u)
                                        (real.balance u + a)%float)
                        name (real.users db);
                    real.transactions :=
                      real.transactions db ++
                        [real.mk_txn (real.sqlite_sequence db + 1) name
                           "Deposit" a now ""];
                    real.sqlite_sequence :=
                      (real.sqlite_sequence db + 1)%Z |})
           else (real.Return false, db)
         end.
Proof.
  unfold real.deposit. destruct (a <=? 0)%float; [reflexivity|].
  destruct failing as [[|[|[|[|?]]]]|]; reflexivity.
Qed.

Lemma real_withdraw_eq failing now db name a :
  real.withdraw failing now db name a =
    if (a <=? 0)%float then (real.Return false, db)
    else if negb (survives 2 failing)
    then (real.Raise real.OperationalError, db)
    else
      match real.users db !! name with
      | None => (real.Return false, db)
      | Some u =>
          if is_nan (real.balance u) then (real.Raise real.TypeError, db)
          else if (real.balance u <? a)%float then (real.Return false, db)
          else if survives 5 failing
               then (real.Return true, real.withdraw_committed now db name a)
               else (real.Return false, db)
      end.
Proof.
  unfold real.withdraw. destruct (a <=? 0)%float; [reflexivity|].
  unfold real.connect, real.SELECT_balance, real.row_lt, real.bind,
    real.call, real.read, real.raise, real.ret; simpl.
  destruct failing as [[|[|k]]|]; simpl; try reflexivity;
    (destruct (real.users db !! name) as [u|]; simpl; [|reflexivity]);
    (destruct (is_nan (real.balance u)); simpl; [reflexivity|]);
    (destruct (real.balance u <? a)%float; [reflexivity|]).
  - destruct k as [|[|[|?]]]; reflexivity.
  - reflexivity.
Qed.


Lemma big_saver_accounts :
  real.users big_saver !! "alice"
    = Some (real.mk_user "hash-a" 10%float) /\
  real.users big_saver !! "bob"
    = Some (real.mk_user "hash-b" 18014398509481984%float) /\
  real.transactions big_saver =
    [ real.mk_txn 1 "alice" "Deposit" 10%float "2025-01-01 10:02:00" "";
      real.mk_txn 2 "bob" "Deposit" 18014398509481984%float
        "2025-01-01 10:03:00" "" ] /\
  real.sqlite_sequence big_saver = 2%Z.
Proof. vm_compute. repeat split; reflexivity. Qed.

(** ** transfer in doubles *)







(** ** withdraw in doubles *)




(** X15.  [withdraw] returns [True] exactly when the test
    [amount <= 0] is false, the account exists with a balance that is
    not NULL and for which [balance < amount] is false, and none of the
    five calls (opening the connection, SELECT, UPDATE, INSERT, commit)
    raises; a NaN amount passes both tests.  In every other case the
    database is left as it was. *)
Theorem withdraw_returns_true_iff failing now db name a :
  (fst (real.withdraw failing now db name a) = real.Return true <->
   (a <=? 0)%float = false /\
   (exists u, real.users db !! name = Some u /\
              is_nan (real.balance u) = false /\
              (real.balance u <? a)%float = false) /\
   (forall k, failing = Some k -> (5 <= k)%nat)) /\
  (fst (real.withdraw failing now db name a) <> real.Return true ->
   snd (real.withdraw failing now db name a) = db).
Proof.
  rewrite real_withdraw_eq.
  destruct (a <=? 0)%float eqn:Ea.
  { simpl. split; [split|done]; [discriminate|]. by intros (? & _). }
  destruct (survives 2 failing) eqn:E2; simpl.
  2:{ split; [split|done]; [discriminate|].
      intros (_ & _ & Hk). destruct failing as [k|]; [|discriminate].
      specialize (Hk k eq_refl). unfold survives in E2.
      apply Nat.leb_gt in E2. lia. }
  destruct (real.users db !! name) as [u|] eqn:Hu; simpl.
  2:{ split; [split|done]; [discriminate|]. by intros (_ & (u & ? & _) & _). }
  destruct (is_nan (real.balance u)) eqn:Enan; simpl.
  { split; [split|done]; [discriminate|].
    intros (_ & (u' & [= <-] & ? & _) & _). congruence. }
  destruct (real.balance u <? a)%float eqn:Eb; simpl.
  { split; [split|done]; [discriminate|].
    intros (_ & (u' & [= <-] & _ & ?) & _). congruence. }
  destruct (survives 5 failing) eqn:E5; simpl.
  - split; [|done]. split; [intros _|done].
    repeat split; [eauto|].
    intros k ->. unfold survives in E5. by apply Nat.leb_le in E5.
  - split; [split|done]; [discriminate|].
    intros (_ & _ & Hk). destruct failing as [k|]; [|discriminate].
    specialize (Hk k eq_refl). unfold survives in E5.
    apply Nat.leb_gt in E5. lia.
Qed.

Lemma withdraw_returns_true_iff_witness :
  fst (real.withdraw (Some 5%nat) "2025-01-01 10:04:00" big_saver "alice"
         nan) = real.Return true /\
  snd (real.withdraw (Some 1%nat) "2025-01-01 10:04:00" big_saver "alice"
         4%float) = big_saver.
Proof.
  destruct (withdraw_returns_true_iff (Some 5%nat) "2025-01-01 10:04:00"
              big_saver "alice" nan) as [[_ Hyes] _].
  destruct (withdraw_returns_true_iff (Some 1%nat) "2025-01-01 10:04:00"
              big_saver "alice" 4%float) as [_ Hno].
  split.
  - apply Hyes. split; [reflexivity|]. split.
    + exists (real.mk_user "hash-a" 10%float).
      split; [vm_compute; reflexivity|]. split; reflexivity.
    + intros k [= <-]. lia.
  - apply Hno. rewrite real_withdraw_eq. vm_compute. discriminate.
Defined.

(** A deposit of NaN passes the test [amount <= 0], returns [True] and
    leaves alice's balance and the amount of the new row NULL. *)
Example deposit_of_nan :
  exists db',
    real.deposit None "2025-01-01 10:04:00" big_saver "alice" nan
      = (real.Return true, db') /\
    (exists u, real.users db' !! "alice" = Some u /\
               is_nan (real.balance u) = true) /\
    exists t, last (real.transactions db') = Some t /\
              is_nan (real.amount t) = true.
Proof.
  eexists. split; [rewrite real_deposit_eq; vm_compute; reflexivity|].
  split; eexists; (split; [vm_compute; reflexivity|reflexivity]).
Qed.

(** * Rows written through the pages *)

Lemma serve_rows_have_accounts db i :
  rows_have_accounts db ->
  (forall name a, inv_request i = Deposit name a ->
                  is_Some (users db !! name)) ->
  rows_have_accounts (serve db i).
Proof.
  unfold rows_have_accounts. intros Hdb Hdep.
  assert (Forall (fun t => is_Some (users (serve db i) !! username t))
            (transactions db)) as Hold.
  { eapply Forall_impl; [exact Hdb|]. intros t. apply serve_keeps_accounts. }
  destruct i as [failing now [name pw hashed|name a|name a|sender receiver a]];
    unfold serve in *; simpl in *.
  - destruct (signup_cases failing hashed db name pw) as [E|[Hn E]];
      rewrite E in *; [exact Hdb|exact Hold].
  - destruct (deposit failing now db name a) as [r db'] eqn:E.
    destruct (true_or_not r) as [->|Hr];
      [|by apply deposit_not_true in E as ->].
    apply deposit_true in E as [Ha ->]. simpl in *.
    apply Forall_app. split; [exact Hold|]. apply Forall_singleton. simpl.
    apply lookup_alter_is_Some. eauto.
  - destruct (withdraw failing now db name a) as [r db'] eqn:E.
    destruct (true_or_not r) as [->|Hr];
      [|by apply withdraw_not_true in E as ->].
    apply withdraw_true in E as (Ha & -> & u & Hu & Hb). simpl in *.
    apply Forall_app. split; [exact Hold|]. apply Forall_singleton. simpl.
    apply lookup_alter_is_Some. eauto.
  - destruct (transfer failing now db sender receiver a) as [r db'] eqn:E.
    destruct (true_or_not r) as [->|Hr];
      [|by apply transfer_not_true in E as ->].
    apply transfer_true in E as (Ha & Hne & -> & u & v & Hu & Hv & Hb).
    simpl in *. rewrite <- app_assoc.
    apply Forall_app. split; [exact Hold|].
    apply Forall_cons. split; [|apply Forall_singleton]; simpl;
      do 2 apply lookup_alter_is_Some; eauto.
Qed.

Lemma browse_rows_have_accounts strip checkpw vs :
  rows_have_accounts (bank (browse strip checkpw vs)).
Proof.
  induction vs as [|v vs IH] using rev_ind; [constructor|].
  rewrite browse_snoc. unfold handle. simpl.
  pose proof (browse_sessions strip checkpw vs) as Hs.
  destruct (giri_effect strip checkpw (input v)
              (session_of (browse strip checkpw vs) (visitor v))
              (bank (browse strip checkpw vs)))
    as [[-> _]|(_ & _ & _ & i & -> & Hact)]; [exact IH|].
  apply serve_rows_have_accounts; [exact IH|].
  by apply (handle_deposits_find_account _ v i).
Qed.

(** X24.  Through the pages of [giri.py] the missing test in [deposit]
    is never met: after any runs of the script from the fresh tables,
    every row of the log, Deposit rows included, names an account that
    exists. *)
Theorem browsing_names_accounts strip checkpw vs t :
  t ∈ transactions (bank (browse strip checkpw vs)) ->
  is_Some (users (bank (browse strip checkpw vs)) !! username t).
Proof.
  pose proof (browse_rows_have_accounts strip checkpw vs) as H.
  unfold rows_have_accounts in H. rewrite Forall_forall in H. apply H.
Qed.

Lemma browsing_names_accounts_witness :
  is_Some
    (users
       (bank (browse (fun s => s)
                (fun p h => bool_decide (h = "hash-" +:+ p))
                [ mk_visit 7 (mk_widgets 0 "dora" "d" true 0 0 "" "hash-d" ""
                                None None);
                  mk_visit 7 (mk_widgets 1 "dora" "d" true 0 0 "" "" ""
                                None None);
                  mk_visit 7 (mk_widgets 0 "" "" true 0 25 "" ""
                                "2025-01-01 10:03:00" None None) ]))
       !! "dora").
Proof.
  apply (browsing_names_accounts (fun s => s)
           (fun p h => bool_decide (h = "hash-" +:+ p))
           [ mk_visit 7 (mk_widgets 0 "dora" "d" true 0 0 "" "hash-d" ""
                           None None);
             mk_visit 7 (mk_widgets 1 "dora" "d" true 0 0 "" "" ""
                           None None);
             mk_visit 7 (mk_widgets 0 "" "" true 0 25 "" ""
                           "2025-01-01 10:03:00" None None) ]
           (mk_txn 1 "dora" "Deposit" 25 "2025-01-01 10:03:00" "")).
  vm_compute. left.
Defined.
